(** * Posts service of nerimity-server: feed assembly, block-aware
      redaction, poll votes and post notifications.

    The development embeds the post service (the module that sits beside
    [User/User] in the services directory) and the content-deletion sweep
    of [src/index.ts] over an explicit model of the relational store: every table is a list of rows in storage order, every
    Prisma call is a pure function on those lists, and every operation
    threads the store explicitly.

    Conventions.
    - A nullable column is an [option]; JavaScript [undefined] in an options
      object is [None] as well.
    - [generateId()] is impure: the identifier it returns in a call is an
      argument of the modelled operation.
    - A write the source guards with [.catch(() => {})] can be rejected by
      the storage layer; whether it is accepted is an argument
      ([StorageOutcome]) of the modelled operation.  Writes that are awaited
      bare are taken to succeed (a rejection there is an exception, not a
      returned error).
    - [updateViews] only queues identifiers in the view cache (outside the
      relational store) and is left out, as is the CDN clean-up
      ([deleteFile], [deleteImageBatch]). *)

From Stdlib Require Import List String ZArith Bool Lia Sorted.
Import ListNotations.
Open Scope string_scope.
Open Scope Z_scope.

Set Implicit Arguments.

(** ** Data model *)

Definition Id := string.

Record User := {
  u_id : Id;
  u_application : bool;
  u_scheduledForContentDeletion : bool
}.

Record Account := {
  a_userId : Id;
  postNotificationCount : Z
}.

Record Post := {
  p_id : Id;
  content : option string;
  createdById : Id;
  commentToId : option Id;
  quotedPostId : option Id;
  deleted : option bool;
  estimateLikes : Z;
  views : Z;
  createdAt : Z;
  editedAt : option Z
}.

Record PostLike := {
  l_id : Id;
  likedById : Id;
  l_postId : Id;
  l_createdAt : Z
}.

Record PostPoll := {
  poll_id : Id;
  poll_postId : Id
}.

Record PostPollChoice := {
  c_id : Id;
  c_pollId : Id;
  c_content : string
}.

Record PostPollVotedUser := {
  v_id : Id;
  v_userId : Id;
  v_pollId : Id;
  pollChoiceId : Id
}.

Record Attachment := {
  at_id : Id;
  at_postId : Id;
  path : string;
  width : option Z;
  height : option Z
}.

Record AnnouncementPost := {
  an_postId : Id
}.

(** [FriendStatus.BLOCKED] is the only status the post service consults. *)
Inductive FriendStatus := PENDING | SENT | FRIENDS | BLOCKED.

(** A row [(userId, recipientId, BLOCKED)] says that [userId] has blocked
    [recipientId]: the relation [user.friends] holds the rows whose [userId]
    is the user, [user.recipientFriends] those whose [recipientId] is. *)
Record Friend := {
  f_userId : Id;
  f_recipientId : Id;
  f_status : FriendStatus
}.

Record Follower := {
  followedById : Id;
  followedToId : Id
}.

Inductive PostNotificationType := LIKED | REPLIED | FOLLOWED.

Record PostNotification := {
  n_id : Id;
  n_byId : Id;
  n_toId : Id;
  n_type : PostNotificationType;
  n_postId : option Id
}.

Record Message := {
  m_id : Id;
  m_createdById : Id;
  m_createdAt : Z
}.

(** The persistent store. *)
Record DB := {
  users : list User;
  accounts : list Account;
  posts : list Post;
  postLikes : list PostLike;
  postPolls : list PostPoll;
  postPollChoices : list PostPollChoice;
  postPollVotedUsers : list PostPollVotedUser;
  attachments : list Attachment;
  announcementPosts : list AnnouncementPost;
  friends : list Friend;
  followers : list Follower;
  postNotifications : list PostNotification;
  messages : list Message
}.

Definition set_accounts (f : list Account -> list Account) (db : DB) : DB :=
  {| users := users db; accounts := f (accounts db); posts := posts db;
     postLikes := postLikes db; postPolls := postPolls db;
     postPollChoices := postPollChoices db;
     postPollVotedUsers := postPollVotedUsers db;
     attachments := attachments db;
     announcementPosts := announcementPosts db; friends := friends db;
     followers := followers db; postNotifications := postNotifications db;
     messages := messages db |}.

Definition set_posts (f : list Post -> list Post) (db : DB) : DB :=
  {| users := users db; accounts := accounts db; posts := f (posts db);
     postLikes := postLikes db; postPolls := postPolls db;
     postPollChoices := postPollChoices db;
     postPollVotedUsers := postPollVotedUsers db;
     attachments := attachments db;
     announcementPosts := announcementPosts db; friends := friends db;
     followers := followers db; postNotifications := postNotifications db;
     messages := messages db |}.

Definition set_postLikes (f : list PostLike -> list PostLike) (db : DB) : DB :=
  {| users := users db; accounts := accounts db; posts := posts db;
     postLikes := f (postLikes db); postPolls := postPolls db;
     postPollChoices := postPollChoices db;
     postPollVotedUsers := postPollVotedUsers db;
     attachments := attachments db;
     announcementPosts := announcementPosts db; friends := friends db;
     followers := followers db; postNotifications := postNotifications db;
     messages := messages db |}.

Definition set_postPolls (f : list PostPoll -> list PostPoll) (db : DB) : DB :=
  {| users := users db; accounts := accounts db; posts := posts db;
     postLikes := postLikes db; postPolls := f (postPolls db);
     postPollChoices := postPollChoices db;
     postPollVotedUsers := postPollVotedUsers db;
     attachments := attachments db;
     announcementPosts := announcementPosts db; friends := friends db;
     followers := followers db; postNotifications := postNotifications db;
     messages := messages db |}.

Definition set_postPollVotedUsers
    (f : list PostPollVotedUser -> list PostPollVotedUser) (db : DB) : DB :=
  {| users := users db; accounts := accounts db; posts := posts db;
     postLikes := postLikes db; postPolls := postPolls db;
     postPollChoices := postPollChoices db;
     postPollVotedUsers := f (postPollVotedUsers db);
     attachments := attachments db;
     announcementPosts := announcementPosts db; friends := friends db;
     followers := followers db; postNotifications := postNotifications db;
     messages := messages db |}.

Definition set_attachments (f : list Attachment -> list Attachment) (db : DB) : DB :=
  {| users := users db; accounts := accounts db; posts := posts db;
     postLikes := postLikes db; postPolls := postPolls db;
     postPollChoices := postPollChoices db;
     postPollVotedUsers := postPollVotedUsers db;
     attachments := f (attachments db);
     announcementPosts := announcementPosts db; friends := friends db;
     followers := followers db; postNotifications := postNotifications db;
     messages := messages db |}.

Definition set_announcementPosts
    (f : list AnnouncementPost -> list AnnouncementPost) (db : DB) : DB :=
  {| users := users db; accounts := accounts db; posts := posts db;
     postLikes := postLikes db; postPolls := postPolls db;
     postPollChoices := postPollChoices db;
     postPollVotedUsers := postPollVotedUsers db;
     attachments := attachments db;
     announcementPosts := f (announcementPosts db); friends := friends db;
     followers := followers db; postNotifications := postNotifications db;
     messages := messages db |}.

Definition set_postNotifications
    (f : list PostNotification -> list PostNotification) (db : DB) : DB :=
  {| users := users db; accounts := accounts db; posts := posts db;
     postLikes := postLikes db; postPolls := postPolls db;
     postPollChoices := postPollChoices db;
     postPollVotedUsers := postPollVotedUsers db;
     attachments := attachments db;
     announcementPosts := announcementPosts db; friends := friends db;
     followers := followers db; postNotifications := f (postNotifications db);
     messages := messages db |}.

Definition set_messages (f : list Message -> list Message) (db : DB) : DB :=
  {| users := users db; accounts := accounts db; posts := posts db;
     postLikes := postLikes db; postPolls := postPolls db;
     postPollChoices := postPollChoices db;
     postPollVotedUsers := postPollVotedUsers db;
     attachments := attachments db;
     announcementPosts := announcementPosts db; friends := friends db;
     followers := followers db; postNotifications := postNotifications db;
     messages := f (messages db) |}.

(** ** Results *)

Definition CustomError := string.

Definition generateError (message : string) : CustomError := message.

(** [CustomResult] is the pair [[value, null]] or [[null, error]]. *)
Inductive CustomResult (A : Type) :=
| Ok (value : A)
| Err (error : CustomError).

Arguments Ok {A} value.
Arguments Err {A} error.

Definition isErr {A} (r : CustomResult A) : bool :=
  match r with Err _ => true | Ok _ => false end.

(** Whether the storage layer accepted a write guarded by [.catch]. *)
Inductive StorageOutcome := Stored | Rejected.

(** ** JavaScript truthiness of optional arguments *)

Definition truthy_string (s : option string) : option string :=
  match s with
  | Some x => if String.eqb x EmptyString then None else Some x
  | None => None
  end.

Definition truthy_number (n : option Z) : option Z :=
  match n with
  | Some x => if x =? 0 then None else Some x
  | None => None
  end.

Definition truthy_bool (b : option bool) : bool :=
  match b with Some true => true | _ => false end.

(** ** Prisma primitives on a table *)

Section Prisma.
Variable A : Type.

(** [orderBy]: a stable insertion sort for a comparator [le]. *)
Fixpoint insert_by (le : A -> A -> bool) (x : A) (l : list A) : list A :=
  match l with
  | [] => [x]
  | y :: l' => if le x y then x :: l else y :: insert_by le x l'
  end.

Fixpoint orderBy (le : A -> A -> bool) (l : list A) : list A :=
  match l with
  | [] => []
  | x :: l' => insert_by le x (orderBy le l')
  end.

(** [skip: n]. *)
Definition skip (n : option nat) (l : list A) : list A :=
  match n with Some k => skipn k l | None => l end.

(** [cursor]: the rows from the row the cursor names onwards; no row when
    the cursor names none. *)
Fixpoint from_cursor (is_cursor : A -> bool) (l : list A) : list A :=
  match l with
  | [] => []
  | x :: l' => if is_cursor x then l else from_cursor is_cursor l'
  end.

Definition cursor (c : option (A -> bool)) (l : list A) : list A :=
  match c with Some is_cursor => from_cursor is_cursor l | None => l end.

(** [findMany({where, orderBy, cursor, skip, take})].  A negative [take]
    pages backwards: the ordering is reversed for the selection and the
    selected rows are returned in the requested ordering. *)
Definition findMany (where_ : A -> bool) (le : option (A -> A -> bool))
    (c : option (A -> bool)) (sk : option nat) (tk : option Z)
    (table : list A) : list A :=
  let rows := filter where_ table in
  let sorted := match le with Some f => orderBy f rows | None => rows end in
  match tk with
  | None => skip sk (cursor c sorted)
  | Some n =>
      if 0 <=? n then firstn (Z.to_nat n) (skip sk (cursor c sorted))
      else rev (firstn (Z.to_nat (- n)) (skip sk (cursor c (rev sorted))))
  end.

(** [findFirst] and [findUnique]: the first matching row. *)
Definition findFirst (where_ : A -> bool) (table : list A) : option A :=
  find where_ table.

(** [deleteMany({where})]. *)
Definition deleteMany (where_ : A -> bool) (table : list A) : list A :=
  filter (fun r => negb (where_ r)) table.

(** [updateMany({where, data})] and [update] on a unique key. *)
Definition updateMany (where_ : A -> bool) (data : A -> A) (table : list A)
    : list A :=
  map (fun r => if where_ r then data r else r) table.

(** [create({data})]. *)
Definition create (row : A) (table : list A) : list A := table ++ [row].
End Prisma.

Arguments findMany {A} where_ le c sk tk table.
Arguments findFirst {A} where_ table.
Arguments deleteMany {A} where_ table.
Arguments updateMany {A} where_ data table.
Arguments create {A} row table.
Arguments orderBy {A} le l.
Arguments insert_by {A} le x l.

Definition FriendStatus_eqb (a b : FriendStatus) : bool :=
  match a, b with
  | PENDING, PENDING | SENT, SENT | FRIENDS, FRIENDS | BLOCKED, BLOCKED => true
  | _, _ => false
  end.

Definition PostNotificationType_eqb (a b : PostNotificationType) : bool :=
  match a, b with
  | LIKED, LIKED | REPLIED, REPLIED | FOLLOWED, FOLLOWED => true
  | _, _ => false
  end.

Definition is_null {A} (x : option A) : bool :=
  match x with None => true | Some _ => false end.

Definition equals_id (x : Id) (y : option Id) : bool :=
  match y with Some z => String.eqb z x | None => false end.

(** Relation filters [none] and [some]. *)
Definition none {A} (cond : A -> bool) (rows : list A) : bool :=
  negb (existsb cond rows).

Definition some {A} (cond : A -> bool) (rows : list A) : bool :=
  existsb cond rows.

(** The relations of a user the service filters on. *)
Definition user_friends (db : DB) (u : Id) : list Friend :=
  filter (fun f => String.eqb (f_userId f) u) (friends db).

Definition user_recipientFriends (db : DB) (u : Id) : list Friend :=
  filter (fun f => String.eqb (f_recipientId f) u) (friends db).

Definition user_followers (db : DB) (u : Id) : list Follower :=
  filter (fun f => String.eqb (followedToId f) u) (followers db).

Definition user_account (db : DB) (u : Id) : option Account :=
  findFirst (fun a => String.eqb (a_userId a) u) (accounts db).

Definition post_by_id (db : DB) (pid : Id) : option Post :=
  findFirst (fun p => String.eqb (p_id p) pid) (posts db).

(** The relation [post.commentTo]. *)
Definition post_commentTo (db : DB) (p : Post) : option Post :=
  match commentToId p with
  | Some pid => post_by_id db pid
  | None => None
  end.

(** ** [constructInclude]: the relations attached to a fetched post *)

Record PollChoiceView := {
  pc_id : Id;
  pc_content : string;
  pc_count_votedUsers : nat
}.

Record PollView := {
  pl_id : Id;
  pl_count_votedUsers : nat;
  pl_votedUsers : list Id;
  pl_choices : list PollChoiceView
}.

#[warnings="-register-all"]
Inductive PostView := mkPostView {
  pv_post : Post;
  pv_poll : option PollView;
  pv_commentTo : option PostView;
  pv_createdBy : option User;
  pv_count_likedBy : nat;
  pv_count_comments : nat;
  pv_likedBy : list Id;
  pv_attachments : list Attachment
}.

Definition by_id_asc (a b : PostPollChoice) : bool :=
  String.leb (c_id a) (c_id b).

Definition include_poll (db : DB) (requesterUserId : Id) (p : Post)
    : option PollView :=
  match findFirst (fun q => String.eqb (poll_postId q) (p_id p)) (postPolls db) with
  | None => None
  | Some q =>
      let votes :=
        filter (fun v => String.eqb (v_pollId v) (poll_id q))
               (postPollVotedUsers db) in
      Some {|
        pl_id := poll_id q;
        pl_count_votedUsers := List.length votes;
        pl_votedUsers :=
          map pollChoiceId
              (filter (fun v => String.eqb (v_userId v) requesterUserId) votes);
        pl_choices :=
          map (fun c =>
                 {| pc_id := c_id c;
                    pc_content := c_content c;
                    pc_count_votedUsers :=
                      List.length
                        (filter (fun v => String.eqb (pollChoiceId v) (c_id c))
                                (postPollVotedUsers db)) |})
              (orderBy by_id_asc
                 (filter (fun c => String.eqb (c_pollId c) (poll_id q))
                         (postPollChoices db)))
      |}
  end.

Definition include_fields (db : DB) (requesterUserId : Id)
    (commentTo : option PostView) (p : Post) : PostView :=
  let likes :=
    filter (fun l => String.eqb (l_postId l) (p_id p)) (postLikes db) in
  {| pv_post := p;
     pv_poll := include_poll db requesterUserId p;
     pv_commentTo := commentTo;
     pv_createdBy :=
       findFirst (fun u => String.eqb (u_id u) (createdById p)) (users db);
     pv_count_likedBy := List.length likes;
     pv_count_comments :=
       List.length
         (filter (fun c => equals_id (p_id p) (commentToId c)
                           && is_null (deleted c))
                 (posts db));
     pv_likedBy :=
       map l_id
           (filter (fun l => String.eqb (likedById l) requesterUserId) likes);
     pv_attachments :=
       filter (fun a => String.eqb (at_postId a) (p_id p)) (attachments db)
  |}.

(** [constructInclude(requesterUserId, continueIter)] applied to a row: the
    parent is attached one level deep, without its own parent. *)
Definition constructInclude (db : DB) (requesterUserId : Id)
    (continueIter : bool) (p : Post) : PostView :=
  include_fields db requesterUserId
    (if continueIter
     then option_map (include_fields db requesterUserId None)
                     (post_commentTo db p)
     else None)
    p.

(** ** [Prisma.PostWhereInput] as the service builds it *)

(** One optional filter for each key the service sets; the caller's other
    keys ([AND], [OR], other columns and relations) are one predicate. *)
Record PostWhereInput := {
  where_id : option (Id -> bool);
  where_createdById : option (Id -> bool);
  where_commentToId : option (option Id -> bool);
  where_createdBy : option (DB -> Id -> bool);
  where_deleted : option (option bool -> bool);
  where_rest : DB -> Post -> bool
}.

Definition empty_where : PostWhereInput :=
  {| where_id := None; where_createdById := None; where_commentToId := None;
     where_createdBy := None; where_deleted := None;
     where_rest := fun _ _ => true |}.

Definition holds {A} (f : option (A -> bool)) (x : A) : bool :=
  match f with Some g => g x | None => true end.

Definition post_matches (db : DB) (w : PostWhereInput) (p : Post) : bool :=
  holds (where_id w) (p_id p)
  && holds (where_createdById w) (createdById p)
  && holds (where_commentToId w) (commentToId p)
  && match where_createdBy w with
     | Some g => g db (createdById p)
     | None => true
     end
  && holds (where_deleted w) (deleted p)
  && where_rest w db p.

(** A later key of an object literal replaces an earlier one. *)
Definition spread {A} (earlier later : option A) : option A :=
  match later with Some x => Some x | None => earlier end.

Definition created_desc (a b : Post) : bool := createdAt b <=? createdAt a.

(** The author has not blocked the requester:
    [friends: { none: { status: BLOCKED, recipientId: requesterUserId } }]. *)
Definition not_blocked_by_author (requesterUserId : Id) (db : DB) (author : Id)
    : bool :=
  none (fun f => FriendStatus_eqb (f_status f) BLOCKED
                 && String.eqb (f_recipientId f) requesterUserId)
       (user_friends db author).

(** The requester has not blocked the author:
    [recipientFriends: { none: { status: BLOCKED, userId: requesterUserId } }]. *)
Definition not_blocked_by_me (requesterUserId : Id) (db : DB) (author : Id)
    : bool :=
  none (fun f => FriendStatus_eqb (f_status f) BLOCKED
                 && String.eqb (f_userId f) requesterUserId)
       (user_recipientFriends db author).

(** ** Paginated reads *)

(** [additionalInclude] only attaches further relations to each returned
    row; it selects and orders nothing and is left out. *)
Record FetchPostsOpts := {
  fo_userId : option Id;
  fo_postId : option Id;
  fo_requesterUserId : Id;
  fo_withReplies : option bool;
  fo_bypassBlocked : option bool;
  fo_hideIfBlockedByMe : option bool;
  fo_limit : option Z;
  fo_afterId : option Id;
  fo_beforeId : option Id;
  fo_where : option PostWhereInput;
  fo_orderBy : option (Post -> Post -> bool);
  fo_skip : option nat;
  fo_cursor : option (Post -> bool)
}.

Definition clamp_limit (limit : option Z) : Z :=
  match truthy_number limit with
  | Some l => if 30 <? l then 30 else l
  | None => 30
  end.

Definition fetchPosts_where (opts : FetchPostsOpts) : PostWhereInput :=
  let w := match fo_where opts with Some w => w | None => empty_where end in
  {| where_id :=
       spread
         (spread (where_id w)
            (option_map (fun afterId id => String.ltb id afterId)
                        (truthy_string (fo_afterId opts))))
         (option_map (fun beforeId id => String.ltb beforeId id)
                     (truthy_string (fo_beforeId opts)));
     where_createdById :=
       spread (where_createdById w)
         (option_map (fun userId id => String.eqb id userId)
                     (truthy_string (fo_userId opts)));
     where_commentToId :=
       spread
         (spread (where_commentToId w)
            (if negb (truthy_bool (fo_withReplies opts))
             then Some (@is_null Id) else None))
         (option_map equals_id (truthy_string (fo_postId opts)));
     where_createdBy :=
       spread (where_createdBy w)
         (if negb (truthy_bool (fo_bypassBlocked opts))
          then Some (fun db author =>
                 (if truthy_bool (fo_hideIfBlockedByMe opts)
                  then not_blocked_by_me (fo_requesterUserId opts) db author
                  else true)
                 && not_blocked_by_author (fo_requesterUserId opts) db author)
          else None);
     where_deleted := Some (@is_null bool);
     where_rest := where_rest w |}.

Definition fetchPosts (db : DB) (opts : FetchPostsOpts) : list PostView :=
  let where_ := fetchPosts_where opts in
  let posts :=
    findMany (post_matches db where_)
             (Some (match fo_orderBy opts with
                    | Some le => le
                    | None => created_desc
                    end))
             (fo_cursor opts) (fo_skip opts)
             (Some (clamp_limit (fo_limit opts)))
             (posts db) in
  rev (map (constructInclude db (fo_requesterUserId opts) true) posts).

Record fetchLinkedPostsOpts := {
  lo_userId : Id;
  lo_requesterUserId : Id;
  lo_bypassBlocked : option bool
}.

Definition like_created_desc (a b : PostLike) : bool :=
  l_createdAt b <=? l_createdAt a.

Definition fetchLikedPosts (db : DB) (opts : fetchLinkedPostsOpts)
    : list PostView :=
  let likes :=
    findMany
      (fun l =>
         String.eqb (likedById l) (lo_userId opts)
         && match post_by_id db (l_postId l) with
            | Some p =>
                if negb (truthy_bool (lo_bypassBlocked opts))
                then not_blocked_by_author (lo_requesterUserId opts) db
                                           (createdById p)
                else true
            | None => false
            end)
      (Some like_created_desc) None None (Some 50) (postLikes db) in
  let posts :=
    flat_map (fun l =>
                match post_by_id db (l_postId l) with
                | Some p => [constructInclude db (lo_requesterUserId opts) true p]
                | None => []
                end)
             likes in
  rev posts.

Record GetFeedOpts := {
  go_userId : Id;
  go_afterId : option Id;
  go_beforeId : option Id;
  go_limit : option Z
}.

Definition getFeed_where (opts : GetFeedOpts) : PostWhereInput :=
  {| where_id :=
       spread
         (option_map (fun afterId id => String.ltb id afterId)
                     (truthy_string (go_afterId opts)))
         (option_map (fun beforeId id => String.ltb beforeId id)
                     (truthy_string (go_beforeId opts)));
     where_createdById := None;
     where_commentToId := Some (@is_null Id);
     where_createdBy := None;
     where_deleted := Some (@is_null bool);
     where_rest := fun db p =>
       String.eqb (createdById p) (go_userId opts)
       || some (fun f => String.eqb (followedById f) (go_userId opts))
               (user_followers db (createdById p)) |}.

Definition getFeed (db : DB) (opts : GetFeedOpts) : list PostView :=
  let feedPosts :=
    findMany (post_matches db (getFeed_where opts)) (Some created_desc)
             None None (Some (clamp_limit (go_limit opts))) (posts db) in
  map (constructInclude db (go_userId opts) true) feedPosts.

(** ** Single-post fetch and writes *)

(** What [fetchPost] resolves to: the fetched post, or the object literal
    [{ id, commentToId, createdBy, commentTo, quotedPostId, block: true }]
    of [constructBlockedPostTemplate]. *)
#[warnings="-register-all"]
Inductive FetchedPost :=
| FullPost (post : PostView)
| BlockedPost (id : Id) (commentToId : option Id) (createdBy : option User)
    (commentTo : option FetchedPost) (quotedPostId : option Id).

(** The keys of a returned object. *)
Inductive Key :=
| K_id | K_content | K_createdById | K_commentToId | K_quotedPostId
| K_deleted | K_estimateLikes | K_views | K_createdAt | K_editedAt
| K_poll | K_commentTo | K_createdBy | K_count | K_likedBy | K_attachments
| K_block.

Definition Key_eqb (a b : Key) : bool :=
  match a, b with
  | K_id, K_id | K_content, K_content | K_createdById, K_createdById
  | K_commentToId, K_commentToId | K_quotedPostId, K_quotedPostId
  | K_deleted, K_deleted | K_estimateLikes, K_estimateLikes
  | K_views, K_views | K_createdAt, K_createdAt | K_editedAt, K_editedAt
  | K_poll, K_poll | K_commentTo, K_commentTo | K_createdBy, K_createdBy
  | K_count, K_count | K_likedBy, K_likedBy | K_attachments, K_attachments
  | K_block, K_block => true
  | _, _ => false
  end.

Definition keys (r : FetchedPost) : list Key :=
  match r with
  | FullPost _ =>
      [K_id; K_content; K_createdById; K_commentToId; K_quotedPostId;
       K_deleted; K_estimateLikes; K_views; K_createdAt; K_editedAt;
       K_poll; K_commentTo; K_createdBy; K_count; K_likedBy; K_attachments]
  | BlockedPost _ _ _ _ _ =>
      [K_id; K_commentToId; K_createdBy; K_commentTo; K_quotedPostId; K_block]
  end.

Definition has_key (k : Key) (r : FetchedPost) : bool :=
  existsb (Key_eqb k) (keys r).

Record FetchPostOpts := {
  po_postId : Id;
  po_requesterUserId : Id;
  po_bypassBlocked : option bool
}.

Record CreatePostNotificationProps := {
  cn_toId : option Id;
  cn_byId : Id;
  cn_postId : option Id;
  cn_type : PostNotificationType
}.

(** [co_attachment] is [(width, height, path)]; [co_poll] holds the poll's
    choices. *)
Record CreatePostOpts := {
  co_userId : Id;
  co_content : option string;
  co_commentToId : option Id;
  co_attachment : option (option Z * option Z * string);
  co_poll : option (list string)
}.

Record EditPostOpts := {
  eo_editById : Id;
  eo_postId : Id;
  eo_content : string
}.

(** A [where] key whose value is [undefined] filters nothing. *)
Definition where_id_is (postId : option Id) (p : Post) : bool :=
  match postId with Some pid => String.eqb (p_id p) pid | None => true end.

Definition increment_notificationCount (a : Account) : Account :=
  {| a_userId := a_userId a;
     postNotificationCount := postNotificationCount a + 1 |}.

Definition set_estimateLikes (f : Z -> Z) (p : Post) : Post :=
  {| p_id := p_id p; content := content p; createdById := createdById p;
     commentToId := commentToId p; quotedPostId := quotedPostId p;
     deleted := deleted p; estimateLikes := f (estimateLikes p);
     views := views p; createdAt := createdAt p; editedAt := editedAt p |}.

(** [data: { content: null, deleted: true, estimateLikes: 0 }]. *)
Definition soft_delete_user (p : Post) : Post :=
  {| p_id := p_id p; content := None; createdById := createdById p;
     commentToId := commentToId p; quotedPostId := quotedPostId p;
     deleted := Some true; estimateLikes := 0;
     views := views p; createdAt := createdAt p; editedAt := editedAt p |}.

(** [data: { content: null, deleted: true }]. *)
Definition soft_delete_sweep (p : Post) : Post :=
  {| p_id := p_id p; content := None; createdById := createdById p;
     commentToId := commentToId p; quotedPostId := quotedPostId p;
     deleted := Some true; estimateLikes := estimateLikes p;
     views := views p; createdAt := createdAt p; editedAt := editedAt p |}.

Definition set_content (c : option string) (at_ : Z) (p : Post) : Post :=
  {| p_id := p_id p; content := c; createdById := createdById p;
     commentToId := commentToId p; quotedPostId := quotedPostId p;
     deleted := deleted p; estimateLikes := estimateLikes p;
     views := views p; createdAt := createdAt p; editedAt := Some at_ |}.

Definition id_in (ids : list Id) (x : Id) : bool :=
  existsb (String.eqb x) ids.

(** The row [fetchPost] reads:
    [findFirst({ where: { id }, orderBy: { createdAt: 'desc' }, take: 50 })]. *)
Definition fetchPost_row (db : DB) (postId : Id) : option Post :=
  hd_error
    (findMany (fun p => String.eqb (p_id p) postId)
              (Some created_desc) None None (Some 50) (posts db)).

Section Service.
(** The block gate of [services/User/User.ts] is outside this
    development; it reads the block relations only. *)
Variable isUserBlocked : list Friend -> Id -> Id -> bool.
Variable getBlockedUserIds : list Friend -> list Id -> Id -> list Id.
(** Text clean-up of [common/badWords] and [String.prototype.trim]. *)
Variable replaceBadWords : string -> string.
Variable trim : string -> string.

Fixpoint constructBlockedPostTemplate (db : DB) (requesterUserId : Id)
    (bypassBlocked : option bool) (post : PostView) : FetchedPost :=
  match post with
  | mkPostView row _ parent author _ _ _ _ =>
      let commentTo :=
        match parent with
        | Some c =>
            if negb (truthy_bool bypassBlocked)
            then
              if isUserBlocked (friends db) requesterUserId
                               (createdById (pv_post c))
              then Some (constructBlockedPostTemplate db requesterUserId
                                                      bypassBlocked c)
              else Some (FullPost c)
            else Some (FullPost c)
        | None => None
        end in
      BlockedPost (p_id row) (commentToId row) author commentTo
                  (quotedPostId row)
  end.

Definition fetchPost (db : DB) (opts : FetchPostOpts) : option FetchedPost :=
  match fetchPost_row db (po_postId opts) with
  | None => None
  | Some row =>
      let post := constructInclude db (po_requesterUserId opts) true row in
      if negb (truthy_bool (po_bypassBlocked opts))
      then
        if isUserBlocked (friends db) (po_requesterUserId opts)
                         (createdById row)
        then Some (constructBlockedPostTemplate db (po_requesterUserId opts)
                                                (po_bypassBlocked opts) post)
        else Some (FullPost post)
      else Some (FullPost post)
  end.

(** The recipient [createPostNotification] settles on, before the
    [!toId] test. [None] is an early [return]. *)
Definition resolve_toId (db : DB) (opts : CreatePostNotificationProps)
    : option (option Id) :=
  let toId := cn_toId opts in
  match
    (match cn_type opts with
     | LIKED | REPLIED =>
         match findFirst (where_id_is (cn_postId opts)) (posts db) with
         | None => None
         | Some post => Some (Some (createdById post))
         end
     | FOLLOWED => Some toId
     end)
  with
  | None => None
  | Some toId =>
      match cn_type opts with
      | REPLIED =>
          match findFirst (where_id_is (cn_postId opts)) (posts db) with
          | None => None
          | Some post =>
              Some (option_map createdById (post_commentTo db post))
          end
      | _ => Some toId
      end
  end.

Definition same_notification (byId toId : Id) (type : PostNotificationType)
    (postId : option Id) (n : PostNotification) : bool :=
  String.eqb (n_byId n) byId
  && String.eqb (n_toId n) toId
  && PostNotificationType_eqb (n_type n) type
  && match postId with
     | Some pid => equals_id pid (n_postId n)
     | None => true
     end.

Definition createPostNotification (db : DB)
    (opts : CreatePostNotificationProps) (newId : Id) (tx : StorageOutcome)
    : DB :=
  match resolve_toId db opts with
  | None => db
  | Some toId =>
      match truthy_string toId with
      | None => db
      | Some toId =>
          if String.eqb toId (cn_byId opts) then db
          else
            match findFirst (same_notification (cn_byId opts) toId
                               (cn_type opts) (cn_postId opts))
                            (postNotifications db) with
            | Some _ => db
            | None =>
                (* $transaction([create, update]).catch(() => {}) *)
                match tx, user_account db toId with
                | Stored, Some _ =>
                    set_accounts
                      (updateMany (fun a => String.eqb (a_userId a) toId)
                                  increment_notificationCount)
                      (set_postNotifications
                         (create {| n_id := newId;
                                    n_byId := cn_byId opts;
                                    n_toId := toId;
                                    n_type := cn_type opts;
                                    n_postId := cn_postId opts |})
                         db)
                | _, _ => db
                end
            end
      end
  end.

Definition createPost (db : DB) (opts : CreatePostOpts)
    (postId attachmentId pollId : Id) (choiceId : nat -> Id) (now : Z)
    (notificationId : Id) (tx : StorageOutcome)
    : DB * CustomResult PostView :=
  let guard :=
    match truthy_string (co_commentToId opts) with
    | Some target =>
        match post_by_id db target with
        | None => Some (generateError "Comment not found")
        | Some comment =>
            match getBlockedUserIds (friends db) [createdById comment]
                                    (co_userId opts) with
            | [] => None
            | _ :: _ => Some (generateError "You have been blocked by this user!")
            end
        end
    | None => None
    end in
  match guard with
  | Some e => (db, Err e)
  | None =>
      let row :=
        {| p_id := postId;
           content := option_map (fun c => replaceBadWords (trim c))
                                 (truthy_string (co_content opts));
           createdById := co_userId opts;
           commentToId := truthy_string (co_commentToId opts);
           quotedPostId := None;
           deleted := None;
           estimateLikes := 0;
           views := 0;
           createdAt := now;
           editedAt := None |} in
      let db1 := set_posts (create row) db in
      let db2 :=
        match co_attachment opts with
        | Some (w, h, pth) =>
            set_attachments
              (create {| at_id := attachmentId; at_postId := postId;
                         path := pth; width := w; height := h |})
              db1
        | None => db1
        end in
      let db3 :=
        match co_poll opts with
        | Some (c :: cs) =>
            {| users := users db2; accounts := accounts db2;
               posts := posts db2; postLikes := postLikes db2;
               postPolls :=
                 create {| poll_id := pollId; poll_postId := postId |}
                        (postPolls db2);
               postPollChoices :=
                 postPollChoices db2
                 ++ map (fun ic => {| c_id := fst ic; c_pollId := pollId;
                                      c_content := snd ic |})
                        (combine (map choiceId (seq 0 (List.length (c :: cs))))
                                 (c :: cs));
               postPollVotedUsers := postPollVotedUsers db2;
               attachments := attachments db2;
               announcementPosts := announcementPosts db2;
               friends := friends db2; followers := followers db2;
               postNotifications := postNotifications db2;
               messages := messages db2 |}
        | _ => db2
        end in
      let post := constructInclude db3 (co_userId opts) true row in
      let db4 :=
        match truthy_string (co_commentToId opts) with
        | Some _ =>
            createPostNotification db3
              {| cn_toId := None; cn_byId := co_userId opts;
                 cn_postId := Some postId; cn_type := REPLIED |}
              notificationId tx
        | None => db3
        end in
      (db4, Ok post)
  end.

Definition editPost (db : DB) (opts : EditPostOpts) (now : Z)
    (upd : StorageOutcome) : DB * CustomResult PostView :=
  match findFirst (fun p => String.eqb (createdById p) (eo_editById opts)
                            && is_null (deleted p)
                            && String.eqb (p_id p) (eo_postId opts))
                  (posts db) with
  | None => (db, Err (generateError "Post not found"))
  | Some _ =>
      match upd with
      | Rejected =>
          (db, Err (generateError "Something went wrong. Try again later."))
      | Stored =>
          let db1 :=
            set_posts
              (updateMany (fun p => String.eqb (p_id p) (eo_postId opts))
                 (set_content
                    (Some (replaceBadWords (trim (eo_content opts)))) now))
              db in
          match post_by_id db1 (eo_postId opts) with
          | Some newPost =>
              (db1, Ok (constructInclude db1 (eo_editById opts) true newPost))
          | None =>
              (db, Err (generateError "Something went wrong. Try again later."))
          end
      end
  end.

Definition getPostLikes (db : DB) (postId : Id)
    : CustomResult (list (option User * Z)) :=
  match findFirst (fun p => is_null (deleted p)
                            && String.eqb (p_id p) postId)
                  (posts db) with
  | None => Err (generateError "Post not found")
  | Some _ =>
      Ok (map (fun l =>
                 (findFirst (fun u => String.eqb (u_id u) (likedById l))
                            (users db),
                  l_createdAt l))
              (findMany (fun l => String.eqb (l_postId l) postId)
                        (Some like_created_desc) None None None
                        (postLikes db)))
  end.

Definition likePost (db : DB) (userId postId : Id) (likeId : Id) (now : Z)
    (ins : StorageOutcome) (notificationId : Id) (tx : StorageOutcome)
    : DB * CustomResult (option FetchedPost) :=
  match findFirst (fun p => is_null (deleted p)
                            && String.eqb (p_id p) postId)
                  (posts db) with
  | None => (db, Err (generateError "Post not found"))
  | Some post =>
      match findFirst (fun l => String.eqb (likedById l) userId
                                && String.eqb (l_postId l) postId)
                      (postLikes db) with
      | Some _ =>
          (db, Err (generateError "You have already liked this post!"))
      | None =>
          match getBlockedUserIds (friends db) [createdById post] userId with
          | _ :: _ =>
              (db, Err (generateError "You have been blocked by this user!"))
          | [] =>
              let db1 :=
                set_posts
                  (updateMany (fun p => String.eqb (p_id p) postId)
                              (set_estimateLikes (fun n => n + 1)))
                  db in
              match ins with
              | Rejected =>
                  (db1,
                   Err (generateError "Something went wrong! Try again later."))
              | Stored =>
                  let db2 :=
                    set_postLikes
                      (create {| l_id := likeId; likedById := userId;
                                 l_postId := postId; l_createdAt := now |})
                      db1 in
                  let newPost :=
                    fetchPost db2 {| po_postId := postId;
                                     po_requesterUserId := userId;
                                     po_bypassBlocked := None |} in
                  let db3 :=
                    createPostNotification db2
                      {| cn_toId := None; cn_byId := userId;
                         cn_postId := Some postId; cn_type := LIKED |}
                      notificationId tx in
                  (db3, Ok newPost)
              end
          end
      end
  end.

Definition unlikePost (db : DB) (userId postId : Id)
    : DB * CustomResult (option FetchedPost) :=
  match findFirst (fun l => String.eqb (likedById l) userId
                            && String.eqb (l_postId l) postId)
                  (postLikes db) with
  | None => (db, Err (generateError "You have not liked this post!"))
  | Some postLike =>
      let db1 :=
        set_posts
          (updateMany (fun p => String.eqb (p_id p) postId)
                      (set_estimateLikes (fun n => n - 1)))
          db in
      let db2 :=
        set_postLikes
          (deleteMany (fun l => String.eqb (l_id l) (l_id postLike))) db1 in
      (db2, Ok (fetchPost db2 {| po_postId := postId;
                                 po_requesterUserId := userId;
                                 po_bypassBlocked := None |}))
  end.

Definition deletePost (db : DB) (postId userId : Id)
    : DB * CustomResult bool :=
  match findFirst (fun p => String.eqb (p_id p) postId
                            && String.eqb (createdById p) userId)
                  (posts db) with
  | None => (db, Err (generateError "Post does not exist!"))
  | Some _ =>
      (set_announcementPosts
         (deleteMany (fun a => String.eqb (an_postId a) postId))
         (set_attachments
            (deleteMany (fun a => String.eqb (at_postId a) postId))
            (set_postPolls
               (deleteMany (fun q => String.eqb (poll_postId q) postId))
               (set_postLikes
                  (deleteMany (fun l => String.eqb (l_postId l) postId))
                  (set_posts
                     (updateMany (fun p => String.eqb (p_id p) postId)
                                 soft_delete_user)
                     db)))),
       Ok true)
  end.

Definition votePostPoll (db : DB) (requesterId postId pollId choiceId : Id)
    (voteId : Id) : DB * CustomResult bool :=
  match findFirst (fun q => String.eqb (poll_postId q) postId
                            && String.eqb (poll_id q) pollId)
                  (postPolls db) with
  | None => (db, Err (generateError "Poll not found."))
  | Some poll =>
      (* select: { post: { select: { createdBy: { select: { id } } } } };
         the relation is required, every poll row has its post *)
      match post_by_id db (poll_postId poll) with
      | None => (db, Err (generateError "Poll not found."))
      | Some post =>
          match getBlockedUserIds (friends db) [createdById post]
                                  requesterId with
          | _ :: _ =>
              (db, Err (generateError "You have been blocked by this user!"))
          | [] =>
              match findFirst (fun c => String.eqb (c_pollId c) pollId
                                        && String.eqb (c_id c) choiceId)
                              (postPollChoices db) with
              | None => (db, Err (generateError "Poll not found."))
              | Some _ =>
                  match findFirst
                          (fun v => String.eqb (v_userId v) requesterId
                                    && String.eqb (v_pollId v) pollId)
                          (postPollVotedUsers db) with
                  | Some _ => (db, Err (generateError "Already voted."))
                  | None =>
                      (set_postPollVotedUsers
                         (create {| v_id := voteId; v_userId := requesterId;
                                    v_pollId := pollId;
                                    pollChoiceId := choiceId |})
                         db,
                       Ok true)
                  end
              end
          end
      end
  end.
End Service.

(** ** The content-deletion sweep of [src/index.ts] *)

Definition user_by_id (db : DB) (u : Id) : option User :=
  findFirst (fun x => String.eqb (u_id x) u) (users db).

(** [createdBy: { scheduledForContentDeletion: { isNot: null } }]. *)
Definition author_scheduled (db : DB) (author : Id) : bool :=
  match user_by_id db author with
  | Some u => u_scheduledForContentDeletion u
  | None => false
  end.

(** [likedBy: { account: null, application: null }]. *)
Definition liker_gone (db : DB) (l : PostLike) : bool :=
  match user_by_id db (likedById l) with
  | Some u => is_null (user_account db (u_id u)) && negb (u_application u)
  | None => false
  end.

Definition message_created_desc (a b : Message) : bool :=
  m_createdAt b <=? m_createdAt a.

Definition nonempty {A} (l : list A) : bool :=
  match l with [] => false | _ :: _ => true end.

(** One run of the interval callback of [scheduleDeleteAccountContent]. *)
Definition scheduleDeleteAccountContent (db : DB) : DB :=
  let likedPosts :=
    findMany (liker_gone db) None None None (Some 1000) (postLikes db) in
  let db1 :=
    if nonempty likedPosts
    then set_postLikes
           (deleteMany (fun l => id_in (map l_id likedPosts) (l_id l))) db
    else db in
  let messages :=
    findMany (fun m => author_scheduled db1 (m_createdById m))
             (Some message_created_desc) None None (Some 1000)
             (messages db1) in
  let messageIds := map m_id messages in
  let posts :=
    findMany (fun p => is_null (deleted p)
                       && author_scheduled db1 (createdById p))
             (Some created_desc) None None (Some 1000) (posts db1) in
  let postIds := map p_id posts in
  let db2 :=
    if nonempty messageIds
    then set_messages (deleteMany (fun m => id_in messageIds (m_id m))) db1
    else db1 in
  if nonempty postIds
  then
    set_attachments
      (deleteMany (fun a => id_in postIds (at_postId a)))
      (set_postPolls
         (deleteMany (fun q => id_in postIds (poll_postId q)))
         (set_postLikes
            (deleteMany (fun l => id_in postIds (l_postId l)))
            (set_posts
               (updateMany (fun p => id_in postIds (p_id p)) soft_delete_sweep)
               db2)))
  else db2.

(** * Specification vocabulary and sample stores *)

(** ** Sample stores for the closed examples *)

Module Samples.
Definition sample_id (n : nat) : Id :=
  String (Ascii.ascii_of_nat (65 + n)) EmptyString.

Definition user (name : Id) : User :=
  {| u_id := name; u_application := false;
     u_scheduledForContentDeletion := false |}.

Definition post (pid author : Id) (at_ : Z) : Post :=
  {| p_id := pid; content := Some "hello"; createdById := author;
     commentToId := None; quotedPostId := None; deleted := None;
     estimateLikes := 0; views := 0; createdAt := at_; editedAt := None |}.

Definition reply (pid author parent : Id) (at_ : Z) : Post :=
  {| p_id := pid; content := Some "reply"; createdById := author;
     commentToId := Some parent; quotedPostId := None; deleted := None;
     estimateLikes := 0; views := 0; createdAt := at_; editedAt := None |}.

Definition like (lid liker pid : Id) (at_ : Z) : PostLike :=
  {| l_id := lid; likedById := liker; l_postId := pid; l_createdAt := at_ |}.

Definition blocks (blocker blocked : Id) : Friend :=
  {| f_userId := blocker; f_recipientId := blocked; f_status := BLOCKED |}.

(** [n] posts of bob, each liked by alice. *)
Definition liked_store (n : nat) : DB :=
  {| users := [user "alice"; user "bob"]; accounts := [];
     posts := map (fun i => post (sample_id i) "bob" (Z.of_nat i)) (seq 0 n);
     postLikes :=
       map (fun i => like (sample_id i) "alice" (sample_id i) (Z.of_nat i))
           (seq 0 n);
     postPolls := []; postPollChoices := []; postPollVotedUsers := [];
     attachments := []; announcementPosts := []; friends := [];
     followers := []; postNotifications := []; messages := [] |}.

Definition posts_opts (requester : Id) (limit : option Z) : FetchPostsOpts :=
  {| fo_userId := None; fo_postId := None; fo_requesterUserId := requester;
     fo_withReplies := None; fo_bypassBlocked := None;
     fo_hideIfBlockedByMe := None; fo_limit := limit; fo_afterId := None;
     fo_beforeId := None; fo_where := None; fo_orderBy := None;
     fo_skip := None; fo_cursor := None |}.

Definition liked_opts (user requester : Id) : fetchLinkedPostsOpts :=
  {| lo_userId := user; lo_requesterUserId := requester;
     lo_bypassBlocked := None |}.

Definition feed_opts (user : Id) (limit : option Z) : GetFeedOpts :=
  {| go_userId := user; go_afterId := None; go_beforeId := None;
     go_limit := limit |}.
End Samples.

(** [blocker] has a [BLOCKED] row towards [blocked]. *)
Definition has_blocked (db : DB) (blocker blocked : Id) : bool :=
  existsb (fun f => FriendStatus_eqb (f_status f) BLOCKED
                    && String.eqb (f_userId f) blocker
                    && String.eqb (f_recipientId f) blocked)
          (friends db).


Module BlockSamples.
Import Samples.


End BlockSamples.



Module OrderSamples.
Import Samples.

(** alice wrote p1 at time 1 and p2 at time 2. *)
Definition two_posts : DB :=
  {| users := [user "alice"]; accounts := [];
     posts := [post "p1" "alice" 1; post "p2" "alice" 2]; postLikes := [];
     postPolls := []; postPollChoices := []; postPollVotedUsers := [];
     attachments := []; announcementPosts := []; friends := [];
     followers := []; postNotifications := []; messages := [] |}.
End OrderSamples.

(** Modelled from the spec: the block gate of [services/User/User.ts], which
    is not among the sources.  [isBlocked(viewer, author)] answers whether a
    block relation exists between the two, in either direction, and
    [blockedSubset(authors, viewer)] keeps the authors for which it does.
    The theorems quantify over the gate; these two only instantiate the
    closed examples. *)
Definition gate_isUserBlocked (fs : list Friend) (viewer author : Id) : bool :=
  existsb (fun f => FriendStatus_eqb (f_status f) BLOCKED
                    && ((String.eqb (f_userId f) viewer
                         && String.eqb (f_recipientId f) author)
                        || (String.eqb (f_userId f) author
                            && String.eqb (f_recipientId f) viewer)))
          fs.

Definition gate_getBlockedUserIds (fs : list Friend) (authors : list Id)
    (viewer : Id) : list Id :=
  filter (gate_isUserBlocked fs viewer) authors.

Fixpoint chain_depth (v : PostView) : nat :=
  match v with
  | mkPostView _ _ parent _ _ _ _ _ =>
      match parent with
      | Some c => S (chain_depth c)
      | None => O
      end
  end.

Section RedactionSpec.
Variable isUserBlocked : list Friend -> Id -> Id -> bool.
Variable db : DB.
Variable requesterUserId : Id.

(** The redaction the specification describes: a blocked node becomes a
    placeholder; its parent is absent, passed through when its author is
    not blocked, or a placeholder in turn. *)
Inductive placeholder_of : PostView -> FetchedPost -> Prop :=
| placeholder_node v parent :
    redacted_parent (pv_commentTo v) parent ->
    placeholder_of v
      (BlockedPost (p_id (pv_post v)) (commentToId (pv_post v))
                   (pv_createdBy v) parent (quotedPostId (pv_post v)))
with redacted_parent : option PostView -> option FetchedPost -> Prop :=
| parent_absent : redacted_parent None None
| parent_passed c :
    isUserBlocked (friends db) requesterUserId (createdById (pv_post c))
    = false ->
    redacted_parent (Some c) (Some (FullPost c))
| parent_redacted c r :
    isUserBlocked (friends db) requesterUserId (createdById (pv_post c))
    = true ->
    placeholder_of c r ->
    redacted_parent (Some c) (Some r).

(** The [commentTo] of the object [constructBlockedPostTemplate] returns. *)
Definition template_parent (bypassBlocked : option bool) (v : PostView)
    : option FetchedPost :=
  match pv_commentTo v with
  | Some c =>
      if negb (truthy_bool bypassBlocked)
      then
        if isUserBlocked (friends db) requesterUserId
                         (createdById (pv_post c))
        then Some (constructBlockedPostTemplate isUserBlocked db
                     requesterUserId bypassBlocked c)
        else Some (FullPost c)
      else Some (FullPost c)
  | None => None
  end.
End RedactionSpec.

Module RedactionSamples.
Import Samples.

(** bob has blocked alice.  carol wrote p1; bob replied with p2, which
    quotes q9. *)
Definition p2 : Post :=
  {| p_id := "p2"; content := Some "reply"; createdById := "bob";
     commentToId := Some "p1"; quotedPostId := Some "q9";
     deleted := None; estimateLikes := 0; views := 0; createdAt := 2;
     editedAt := None |}.

Definition thread : DB :=
  {| users := [user "alice"; user "bob"; user "carol"]; accounts := [];
     posts := [post "p1" "carol" 1; p2];
     postLikes := [];
     postPolls := []; postPollChoices := []; postPollVotedUsers := [];
     attachments := []; announcementPosts := [];
     friends := [blocks "bob" "alice"];
     followers := []; postNotifications := []; messages := [] |}.

Definition fetch_p2 : FetchPostOpts :=
  {| po_postId := "p2"; po_requesterUserId := "alice";
     po_bypassBlocked := None |}.
End RedactionSamples.

(** The derived vote count of a choice, as [constructInclude] counts it. *)
Definition choice_votes (db : DB) (choiceId : Id) : nat :=
  List.length (filter (fun v => String.eqb (pollChoiceId v) choiceId)
                      (postPollVotedUsers db)).



Definition vote_of (db : DB) (requesterId pollId : Id)
    : option PostPollVotedUser :=
  findFirst (fun v => String.eqb (v_userId v) requesterId
                      && String.eqb (v_pollId v) pollId)
            (postPollVotedUsers db).

Definition vote_row (voteId requesterId pollId choiceId : Id)
    : PostPollVotedUser :=
  {| v_id := voteId; v_userId := requesterId; v_pollId := pollId;
     pollChoiceId := choiceId |}.

Module VoteSamples.
Import Samples.

(** bob's post p1 carries a poll with the choices c1 and c2. *)
Definition poll_store : DB :=
  {| users := [user "alice"; user "bob"]; accounts := [];
     posts := [post "p1" "bob" 1]; postLikes := [];
     postPolls := [{| poll_id := "poll1"; poll_postId := "p1" |}];
     postPollChoices :=
       [{| c_id := "c1"; c_pollId := "poll1"; c_content := "yes" |};
        {| c_id := "c2"; c_pollId := "poll1"; c_content := "no" |}];
     postPollVotedUsers := [];
     attachments := []; announcementPosts := []; friends := [];
     followers := []; postNotifications := []; messages := [] |}.

Definition voted : DB :=
  fst (votePostPoll gate_getBlockedUserIds poll_store
                    "alice" "p1" "poll1" "c1" "v1").
End VoteSamples.

Definition option_id_eqb (a b : option Id) : bool :=
  match a, b with
  | Some x, Some y => String.eqb x y
  | None, None => true
  | _, _ => false
  end.

(** The rows of one (actor, recipient, type, subject) tuple. *)
Definition is_tuple (byId toId : Id) (type : PostNotificationType)
    (postId : option Id) (n : PostNotification) : bool :=
  String.eqb (n_byId n) byId
  && String.eqb (n_toId n) toId
  && PostNotificationType_eqb (n_type n) type
  && option_id_eqb (n_postId n) postId.

Definition tuple_rows (db : DB) (byId toId : Id) (type : PostNotificationType)
    (postId : option Id) : list PostNotification :=
  filter (is_tuple byId toId type postId) (postNotifications db).

Definition unique_notifications (db : DB) : Prop :=
  forall byId toId type postId,
    (List.length (tuple_rows db byId toId type postId) <= 1)%nat.

(** The unread counter of a user's account. *)
Definition unread (db : DB) (userId : Id) : option Z :=
  option_map postNotificationCount (user_account db userId).

Definition notification_row (newId : Id) (opts : CreatePostNotificationProps)
    (toId : Id) : PostNotification :=
  {| n_id := newId; n_byId := cn_byId opts; n_toId := toId;
     n_type := cn_type opts; n_postId := cn_postId opts |}.

(** What a call that is not skipped does to the store. *)
Definition notified (db : DB) (opts : CreatePostNotificationProps)
    (newId toId : Id) : DB :=
  set_accounts
    (updateMany (fun a => String.eqb (a_userId a) toId)
                increment_notificationCount)
    (set_postNotifications (create (notification_row newId opts toId)) db).

(** A run of calls, each with the identifier it draws and the outcome of
    its transaction. *)
Definition notify_all (db : DB)
    (calls : list (CreatePostNotificationProps * Id * StorageOutcome)) : DB :=
  fold_left (fun d c =>
               createPostNotification d (fst (fst c)) (snd (fst c)) (snd c))
            calls db.

Module NotificationSamples.
Import Samples.

(** bob wrote p1; alice replied to it with p2.  bob has an account with no
    unread notification. *)
Definition replied_store : DB :=
  {| users := [user "alice"; user "bob"];
     accounts := [{| a_userId := "bob"; postNotificationCount := 0 |}];
     posts := [post "p1" "bob" 1; reply "p2" "alice" "p1" 2];
     postLikes := [];
     postPolls := []; postPollChoices := []; postPollVotedUsers := [];
     attachments := []; announcementPosts := []; friends := [];
     followers := []; postNotifications := []; messages := [] |}.

Definition replied_p2 : CreatePostNotificationProps :=
  {| cn_toId := None; cn_byId := "alice"; cn_postId := Some "p2";
     cn_type := REPLIED |}.

Definition liked_p1 : CreatePostNotificationProps :=
  {| cn_toId := None; cn_byId := "alice"; cn_postId := Some "p1";
     cn_type := LIKED |}.
End NotificationSamples.

Module DeletionSamples.
Import Samples.

(** bob's account is marked for content deletion; his post p1 has three
    likes, from alice, carol and dave. *)
Definition scheduled_store : DB :=
  {| users :=
       [user "alice"; user "carol"; user "dave";
        {| u_id := "bob"; u_application := false;
           u_scheduledForContentDeletion := true |}];
     accounts :=
       [{| a_userId := "alice"; postNotificationCount := 0 |};
        {| a_userId := "carol"; postNotificationCount := 0 |};
        {| a_userId := "dave"; postNotificationCount := 0 |}];
     posts :=
       [{| p_id := "p1"; content := Some "hello"; createdById := "bob";
           commentToId := None; quotedPostId := None; deleted := None;
           estimateLikes := 3; views := 0; createdAt := 1;
           editedAt := None |}];
     postLikes :=
       [like "l1" "alice" "p1" 2; like "l2" "carol" "p1" 3;
        like "l3" "dave" "p1" 4];
     postPolls := []; postPollChoices := []; postPollVotedUsers := [];
     attachments := []; announcementPosts := []; friends := [];
     followers := []; postNotifications := []; messages := [] |}.
End DeletionSamples.

Module LikeSamples.
Import Samples.

(** bob wrote p1, which nobody has liked. *)
Definition unliked_store : DB :=
  {| users := [user "alice"; user "bob"]; accounts := [];
     posts := [post "p1" "bob" 1]; postLikes := [];
     postPolls := []; postPollChoices := []; postPollVotedUsers := [];
     attachments := []; announcementPosts := []; friends := [];
     followers := []; postNotifications := []; messages := [] |}.
End LikeSamples.

(** The identifier names a post, and every row under it is soft-deleted. *)
Definition soft_deleted (db : DB) (postId : Id) : Prop :=
  (exists p, In p (posts db) /\ p_id p = postId)
  /\ forall p, In p (posts db) -> p_id p = postId -> deleted p = Some true.

Module SoftDeleteSamples.
(** The store after bob deleted his liked post p1. *)
Definition after_delete : DB :=
  fst (deletePost DeletionSamples.scheduled_store "p1" "bob").
End SoftDeleteSamples.

(** * Further operations *)

(** ** The rest of the post service *)

Record fetchLatestPostOpts := {
  la_userId : Id;
  la_requesterUserId : Id;
  la_bypassBlocked : option bool
}.

(** [findFirst] with an ordering reads the first row of the ordered
    selection. *)
Definition fetchLatestPost (db : DB) (opts : fetchLatestPostOpts)
    : option PostView :=
  match hd_error
          (findMany
             (fun p =>
                is_null (deleted p)
                && is_null (commentToId p)
                && String.eqb (createdById p) (la_userId opts)
                && (if negb (truthy_bool (la_bypassBlocked opts))
                    then not_blocked_by_author (la_requesterUserId opts) db
                                               (createdById p)
                    else true))
             (Some created_desc) None None None (posts db)) with
  | None => None
  | Some post =>
      Some (constructInclude db (la_requesterUserId opts) true post)
  end.

Definition getPostNotificationCount (db : DB) (userId : Id) : option Z :=
  option_map postNotificationCount
    (findFirst (fun a => String.eqb (a_userId a) userId) (accounts db)).

Definition reset_notificationCount (a : Account) : Account :=
  {| a_userId := a_userId a; postNotificationCount := 0 |}.

(** [account.update] on a user without an account throws and writes
    nothing. *)
Definition dismissPostNotification (db : DB) (userId : Id) : DB :=
  set_accounts
    (updateMany (fun a => String.eqb (a_userId a) userId)
                reset_notificationCount)
    db.





(** ** The view flush of [src/index.ts] *)




(** ** Cache keys ([cache/CacheKeys.ts]) *)

Definition ACCOUNT_CACHE_KEY_STRING (userId : string) : string :=
  "ACCOUNT:" ++ userId.

Definition SERVER_KEY_STRING (serverId : string) : string :=
  "SERVER:" ++ serverId.

Definition SERVER_CHANNEL_KEY_STRING (channelId : string) : string :=
  "SERVER_CHANNEL:" ++ channelId.

Definition SERVER_MEMBERS_KEY_HASH (serverId : string) : string :=
  "SERVER_MEMBERS:" ++ serverId.

Definition CONNECTED_SOCKET_ID_KEY_SET (userId : string) : string :=
  "SOCKET_USER_CONNECTED:" ++ userId.

Definition CONNECTED_USER_ID_KEY_STRING (socketId : string) : string :=
  "SOCKET_USER_ID:" ++ socketId.

Definition USER_PRESENCE_KEY_STRING (userId : string) : string :=
  "USER_PRESENCE:" ++ userId.

(** The seven key builders, by name. *)
Inductive KeyBuilder :=
| AccountKey | ServerKey | ServerChannelKey | ServerMembersKey
| ConnectedSocketIdKey | ConnectedUserIdKey | UserPresenceKey.

Definition cache_key (b : KeyBuilder) (id : string) : string :=
  match b with
  | AccountKey => ACCOUNT_CACHE_KEY_STRING id
  | ServerKey => SERVER_KEY_STRING id
  | ServerChannelKey => SERVER_CHANNEL_KEY_STRING id
  | ServerMembersKey => SERVER_MEMBERS_KEY_HASH id
  | ConnectedSocketIdKey => CONNECTED_SOCKET_ID_KEY_SET id
  | ConnectedUserIdKey => CONNECTED_USER_ID_KEY_STRING id
  | UserPresenceKey => USER_PRESENCE_KEY_STRING id
  end.

(** ** Vocabulary of the further properties *)

(** [follower] follows [followee]. *)
Definition follows (db : DB) (follower followee : Id) : bool :=
  existsb (fun f => String.eqb (followedById f) follower
                    && String.eqb (followedToId f) followee)
          (followers db).

(** What [getFeed] selects from, cursors apart. *)
Definition in_feed (db : DB) (viewer : Id) (p : Post) : bool :=
  is_null (commentToId p) && is_null (deleted p)
  && (String.eqb (createdById p) viewer || follows db viewer (createdById p)).

(** The like rows of a post and of a (user, post) pair. *)
Definition likes_of_post (db : DB) (postId : Id) : list PostLike :=
  filter (fun l => String.eqb (l_postId l) postId) (postLikes db).

Definition likes_of_pair (db : DB) (userId postId : Id) : list PostLike :=
  filter (fun l => String.eqb (likedById l) userId
                   && String.eqb (l_postId l) postId)
         (postLikes db).

(** At most one like per (user, post). *)
Definition unique_likes (db : DB) : Prop :=
  forall userId postId,
    (List.length (likes_of_pair db userId postId) <= 1)%nat.

(** Every post's approximate like counter equals the number of its like
    rows. *)
Definition likes_counted (db : DB) : Prop :=
  forall p, In p (posts db) ->
    estimateLikes p = Z.of_nat (List.length (likes_of_post db (p_id p))).


(** The posts the sweep is after: undeleted, of an author marked for content
    deletion. *)
Definition sweepable (db : DB) (p : Post) : bool :=
  is_null (deleted p) && author_scheduled db (createdById p).

Definition with_afterId (afterId : option Id) (opts : FetchPostsOpts)
    : FetchPostsOpts :=
  {| fo_userId := fo_userId opts; fo_postId := fo_postId opts;
     fo_requesterUserId := fo_requesterUserId opts;
     fo_withReplies := fo_withReplies opts;
     fo_bypassBlocked := fo_bypassBlocked opts;
     fo_hideIfBlockedByMe := fo_hideIfBlockedByMe opts;
     fo_limit := fo_limit opts; fo_afterId := afterId;
     fo_beforeId := fo_beforeId opts; fo_where := fo_where opts;
     fo_orderBy := fo_orderBy opts; fo_skip := fo_skip opts;
     fo_cursor := fo_cursor opts |}.

Definition with_withReplies (withReplies : option bool) (opts : FetchPostsOpts)
    : FetchPostsOpts :=
  {| fo_userId := fo_userId opts; fo_postId := fo_postId opts;
     fo_requesterUserId := fo_requesterUserId opts;
     fo_withReplies := withReplies;
     fo_bypassBlocked := fo_bypassBlocked opts;
     fo_hideIfBlockedByMe := fo_hideIfBlockedByMe opts;
     fo_limit := fo_limit opts; fo_afterId := fo_afterId opts;
     fo_beforeId := fo_beforeId opts; fo_where := fo_where opts;
     fo_orderBy := fo_orderBy opts; fo_skip := fo_skip opts;
     fo_cursor := fo_cursor opts |}.

(** The store after the counter update and the like row of [likePost]. *)
Definition with_like (db : DB) (userId postId likeId : Id) (now : Z) : DB :=
  set_postLikes
    (create {| l_id := likeId; likedById := userId; l_postId := postId;
               l_createdAt := now |})
    (set_posts (updateMany (fun p => String.eqb (p_id p) postId)
                           (set_estimateLikes (fun n => n + 1)))
               db).

(** The columns an edit never writes. *)
Definition post_frame (p : Post) :=
  (p_id p, createdById p, commentToId p, quotedPostId p, deleted p,
   estimateLikes p, views p, createdAt p).

(** ** Further sample stores *)

Module ViewSamples.
Import Samples.

End ViewSamples.

Module FeedSamples.
Import Samples.

(** alice follows bob and not carol; each of the three wrote one post, and
    bob also replied to alice. *)
Definition followed_store : DB :=
  {| users := [user "alice"; user "bob"; user "carol"]; accounts := [];
     posts := [post "p1" "alice" 1; post "p2" "bob" 2; post "p3" "carol" 3;
               reply "p4" "bob" "p1" 4];
     postLikes := [];
     postPolls := []; postPollChoices := []; postPollVotedUsers := [];
     attachments := []; announcementPosts := []; friends := [];
     followers := [{| followedById := "alice"; followedToId := "bob" |}];
     postNotifications := []; messages := [] |}.
End FeedSamples.

Module RoundTripSamples.
(** The store after alice liked bob's post p1. *)
Definition liked : DB :=
  fst (likePost gate_isUserBlocked gate_getBlockedUserIds
                LikeSamples.unliked_store "alice" "p1" "l1" 5 Stored
                "n1" Stored).

Definition liked_result : option FetchedPost :=
  fetchPost gate_isUserBlocked
            (with_like LikeSamples.unliked_store "alice" "p1" "l1" 5)
            {| po_postId := "p1"; po_requesterUserId := "alice";
               po_bypassBlocked := None |}.
End RoundTripSamples.

Module CreateSamples.
(** alice answers bob's post p1 with a two-choice poll. *)
Definition reply_opts : CreatePostOpts :=
  {| co_userId := "alice"; co_content := Some "hi";
     co_commentToId := Some "p1"; co_attachment := None;
     co_poll := Some ["yes"; "no"] |}.

Definition created : DB * CustomResult PostView :=
  createPost gate_getBlockedUserIds (fun s => s) (fun s => s)
             NotificationSamples.replied_store reply_opts "p3" "a1" "poll1"
             (fun i => Samples.sample_id i) 9 "n1" Stored.

Definition created_view : PostView :=
  match snd created with
  | Ok v => v
  | Err _ =>
      constructInclude NotificationSamples.replied_store "alice" true
                       (Samples.post "p3" "alice" 9)
  end.
End CreateSamples.

Module OptionSamples.
(** A page selected with the cursor [beforeId] = p1. *)
Definition before_p1 : FetchPostsOpts :=
  {| fo_userId := None; fo_postId := None; fo_requesterUserId := "alice";
     fo_withReplies := None; fo_bypassBlocked := None;
     fo_hideIfBlockedByMe := None; fo_limit := None; fo_afterId := None;
     fo_beforeId := Some "p1"; fo_where := None; fo_orderBy := None;
     fo_skip := None; fo_cursor := None |}.

Definition latest_of_bob : fetchLatestPostOpts :=
  {| la_userId := "bob"; la_requesterUserId := "alice";
     la_bypassBlocked := None |}.

(** alice tries to edit bob's post. *)
Definition foreign_edit : EditPostOpts :=
  {| eo_editById := "alice"; eo_postId := "p1"; eo_content := "mine" |}.
End OptionSamples.

(** * Properties *)

(** ** Facts about the Prisma primitives *)

Section PrismaFacts.
Variable A : Type.
Implicit Types (l : list A) (le : A -> A -> bool).

Lemma insert_by_In le x y l :
  In y (insert_by le x l) <-> y = x \/ In y l.
Proof.
  induction l as [|z l IH]; simpl.
  - intuition congruence.
  - destruct (le x z); simpl; rewrite ?IH; intuition congruence.
Qed.

Lemma orderBy_In le y l : In y (orderBy le l) <-> In y l.
Proof.
  induction l as [|z l IH]; simpl; [tauto|].
  rewrite insert_by_In, IH. intuition congruence.
Qed.

Lemma insert_by_length le x l :
  List.length (insert_by le x l) = S (List.length l).
Proof.
  induction l as [|z l IH]; simpl; [reflexivity|].
  destruct (le x z); simpl; congruence.
Qed.

Lemma orderBy_length le l : List.length (orderBy le l) = List.length l.
Proof.
  induction l as [|z l IH]; simpl; [reflexivity|].
  rewrite insert_by_length. congruence.
Qed.

Lemma from_cursor_In is_cursor x l :
  In x (from_cursor is_cursor l) -> In x l.
Proof.
  induction l as [|z l IH]; simpl; [tauto|].
  destruct (is_cursor z); simpl; tauto.
Qed.

Lemma cursor_In c x l : In x (cursor c l) -> In x l.
Proof. destruct c; simpl; [apply from_cursor_In | tauto]. Qed.

Lemma skip_In sk x l : In x (skip sk l) -> In x l.
Proof.
  destruct sk as [k|]; simpl; [|tauto].
  intros H. rewrite <- (firstn_skipn k l). apply in_or_app. now right.
Qed.

Lemma firstn_In n x l : In x (firstn n l) -> In x l.
Proof.
  intros H. rewrite <- (firstn_skipn n l). apply in_or_app. now left.
Qed.

(** Every row [findMany] returns is a row of the table that satisfies
    [where]. *)
Lemma findMany_In where_ ord c sk tk (table : list A) (x : A) :
  In x (findMany where_ ord c sk tk table) ->
  In x table /\ where_ x = true.
Proof.
  unfold findMany. intros H. apply filter_In.
  assert (Hs : forall y,
             In y (match ord with
                   | Some f => orderBy f (filter where_ table)
                   | None => filter where_ table
                   end) -> In y (filter where_ table)).
  { destruct ord; intros y; [apply orderBy_In | tauto]. }
  apply Hs. destruct tk as [n|].
  - destruct (0 <=? n).
    + now apply firstn_In, skip_In, cursor_In in H.
    + apply in_rev, firstn_In, skip_In, cursor_In in H.
      now apply in_rev in H.
  - now apply skip_In, cursor_In in H.
Qed.

(** [take: n] bounds the page by [|n|]. *)
Lemma findMany_take_length where_ ord c sk n (table : list A) :
  (List.length (findMany where_ ord c sk (Some n) table)
   <= Z.to_nat (Z.abs n))%nat.
Proof.
  unfold findMany. destruct (0 <=? n) eqn:Hn.
  - apply Z.leb_le in Hn. rewrite Z.abs_eq by lia. apply firstn_le_length.
  - apply Z.leb_gt in Hn. rewrite length_rev, Z.abs_neq by lia.
    apply firstn_le_length.
Qed.

(** *** Ordering *)

Variable le : A -> A -> bool.
Hypothesis le_total : forall x y, le x y = true \/ le y x = true.
Hypothesis le_trans :
  forall x y z, le x y = true -> le y z = true -> le x z = true.

Lemma insert_by_sorted x l :
  StronglySorted (fun a b => le a b = true) l ->
  StronglySorted (fun a b => le a b = true) (insert_by le x l).
Proof.
  induction l as [|z l IH]; simpl; intros Hs.
  - constructor; [constructor | constructor].
  - destruct (le x z) eqn:Hxz.
    + constructor; [assumption|].
      constructor; [assumption|].
      apply StronglySorted_inv in Hs. destruct Hs as [_ Hz].
      rewrite Forall_forall in *. intros y Hy.
      eapply le_trans; [exact Hxz | exact (Hz y Hy)].
    + pose proof (StronglySorted_inv Hs) as [Hl Hz].
      constructor; [now apply IH|].
      rewrite Forall_forall in *. intros y Hy.
      apply insert_by_In in Hy. destruct Hy as [->|Hy].
      * destruct (le_total x z) as [H|H]; [congruence | exact H].
      * now apply Hz.
Qed.

Lemma orderBy_sorted l :
  StronglySorted (fun a b => le a b = true) (orderBy le l).
Proof.
  induction l as [|z l IH]; simpl; [constructor|].
  now apply insert_by_sorted.
Qed.
End PrismaFacts.

Section SortedFacts.
Variable A : Type.
Implicit Type R : A -> A -> Prop.

Lemma sorted_app R (l1 l2 : list A) :
  StronglySorted R l1 -> StronglySorted R l2 ->
  (forall x y, In x l1 -> In y l2 -> R x y) ->
  StronglySorted R (l1 ++ l2).
Proof.
  induction l1 as [|a l1 IH]; simpl; intros H1 H2 H; [assumption|].
  apply StronglySorted_inv in H1. destruct H1 as [H1 Ha].
  constructor.
  - apply IH; auto.
  - rewrite Forall_forall in *. intros y Hy.
    apply in_app_or in Hy. destruct Hy; auto.
Qed.

Lemma sorted_app_inv R (l1 l2 : list A) :
  StronglySorted R (l1 ++ l2) ->
  StronglySorted R l1 /\ StronglySorted R l2.
Proof.
  induction l1 as [|a l1 IH]; simpl; intros H.
  - split; [constructor | assumption].
  - apply StronglySorted_inv in H. destruct H as [H Ha].
    destruct (IH H) as [H1 H2]. split; [|assumption].
    constructor; [assumption|].
    rewrite Forall_forall in *. intros y Hy. apply Ha, in_or_app. now left.
Qed.

Lemma sorted_firstn R n (l : list A) :
  StronglySorted R l -> StronglySorted R (firstn n l).
Proof.
  intros H. rewrite <- (firstn_skipn n l) in H.
  now apply sorted_app_inv in H.
Qed.

Lemma sorted_skipn R n (l : list A) :
  StronglySorted R l -> StronglySorted R (skipn n l).
Proof.
  intros H. rewrite <- (firstn_skipn n l) in H.
  now apply sorted_app_inv in H.
Qed.

Lemma sorted_from_cursor R is_cursor (l : list A) :
  StronglySorted R l -> StronglySorted R (from_cursor is_cursor l).
Proof.
  induction l as [|a l IH]; simpl; intros H; [constructor|].
  destruct (is_cursor a); [assumption|].
  apply IH. now apply StronglySorted_inv in H.
Qed.

Lemma sorted_rev R (l : list A) :
  StronglySorted R l -> StronglySorted (fun x y => R y x) (rev l).
Proof.
  induction l as [|a l IH]; simpl; intros H; [constructor|].
  apply StronglySorted_inv in H. destruct H as [H Ha].
  apply sorted_app.
  - now apply IH.
  - constructor; constructor.
  - intros x y Hx [<-|[]]. apply in_rev in Hx.
    rewrite Forall_forall in Ha. now apply Ha.
Qed.
End SortedFacts.

(** With an ordering, [findMany] returns its page in that ordering,
    whatever the cursor, the skip and the sign of [take]. *)
Lemma findMany_sorted {A} (le : A -> A -> bool) where_ c sk tk table :
  (forall x y, le x y = true \/ le y x = true) ->
  (forall x y z, le x y = true -> le y z = true -> le x z = true) ->
  StronglySorted (fun x y => le x y = true)
                 (findMany where_ (Some le) c sk tk table).
Proof.
  intros Htot Htr. unfold findMany.
  pose proof (orderBy_sorted le Htot Htr (filter where_ table)) as Hs.
  set (sorted := orderBy le (filter where_ table)) in *.
  assert (Hpage : forall (Q : A -> A -> Prop) l,
             StronglySorted Q l -> StronglySorted Q (skip sk (cursor c l))).
  { intros Q l Hl. destruct sk as [k|], c as [f|]; simpl;
      auto using sorted_skipn, sorted_from_cursor. }
  destruct tk as [n|]; [|now apply Hpage].
  destruct (0 <=? n).
  - now apply sorted_firstn, Hpage.
  - apply sorted_rev in Hs.
    apply (Hpage _ _), (sorted_firstn (Z.to_nat (- n))), sorted_rev in Hs.
    exact Hs.
Qed.

(** ** Page size (C2) *)

Lemma clamp_limit_positive L :
  1 <= L -> 0 <= clamp_limit (Some L) <= Z.min L 30.
Proof.
  intros HL. unfold clamp_limit, truthy_number.
  destruct (L =? 0) eqn:E0; [apply Z.eqb_eq in E0; lia|].
  destruct (30 <? L) eqn:E; [apply Z.ltb_lt in E | apply Z.ltb_ge in E]; lia.
Qed.

Lemma clamp_limit_default limit :
  limit = None \/ limit = Some 0 -> clamp_limit limit = 30.
Proof. intros [->| ->]; reflexivity. Qed.

Lemma fetchPosts_length db opts :
  (List.length (fetchPosts db opts)
   <= Z.to_nat (Z.abs (clamp_limit (fo_limit opts))))%nat.
Proof.
  unfold fetchPosts. rewrite length_rev, length_map.
  apply findMany_take_length.
Qed.

Lemma getFeed_length db opts :
  (List.length (getFeed db opts)
   <= Z.to_nat (Z.abs (clamp_limit (go_limit opts))))%nat.
Proof.
  unfold getFeed. rewrite length_map. apply findMany_take_length.
Qed.

Lemma flat_map_length_le {A B} (f : A -> list B) (l : list A) :
  (forall x, List.length (f x) <= 1)%nat ->
  (List.length (flat_map f l) <= List.length l)%nat.
Proof.
  intros Hf. induction l as [|a l IH]; simpl; [lia|].
  rewrite length_app. specialize (Hf a). lia.
Qed.

Lemma fetchLikedPosts_length db opts :
  (List.length (fetchLikedPosts db opts) <= 50)%nat.
Proof.
  unfold fetchLikedPosts. rewrite length_rev.
  etransitivity.
  - apply flat_map_length_le. intros l.
    destruct (post_by_id db (l_postId l)); simpl; lia.
  - etransitivity; [apply findMany_take_length|]. simpl. lia.
Qed.

(** C2 (as stated, refuted): the liked-posts list has no caller limit and
    takes 50 rows, so a user with 31 likes gets 31 posts, above the ceiling
    of 30; and [fetchPosts] treats the limit 0 as no limit, returning 30
    posts where [min(0, 30)] is 0. *)
Lemma page_size_ceiling_counterexample :
  (30 < List.length (fetchLikedPosts (Samples.liked_store 31)
                                     (Samples.liked_opts "alice" "alice")))%nat
  /\ Z.min 0 30
     < Z.of_nat (List.length (fetchPosts (Samples.liked_store 31)
                                         (Samples.posts_opts "alice" (Some 0)))).
Proof. split; vm_compute; [lia | reflexivity]. Qed.

(** C2 (amended): [fetchPosts] and [getFeed] return at most [min(L, 30)]
    posts for a caller limit [L >= 1] and at most 30 posts when the limit is
    absent or 0; [fetchLikedPosts] takes no limit and returns at most 50
    posts. *)
Theorem page_size_ceiling (db : DB) :
  (forall opts L, fo_limit opts = Some L -> 1 <= L ->
     Z.of_nat (List.length (fetchPosts db opts)) <= Z.min L 30)
  /\ (forall opts, fo_limit opts = None \/ fo_limit opts = Some 0 ->
        (List.length (fetchPosts db opts) <= 30)%nat)
  /\ (forall opts L, go_limit opts = Some L -> 1 <= L ->
        Z.of_nat (List.length (getFeed db opts)) <= Z.min L 30)
  /\ (forall opts, go_limit opts = None \/ go_limit opts = Some 0 ->
        (List.length (getFeed db opts) <= 30)%nat)
  /\ (forall opts, (List.length (fetchLikedPosts db opts) <= 50)%nat).
Proof.
  repeat split.
  - intros opts L HL H1. pose proof (fetchPosts_length db opts) as H.
    rewrite HL in H. pose proof (clamp_limit_positive H1). lia.
  - intros opts H0. pose proof (fetchPosts_length db opts) as H.
    rewrite (clamp_limit_default H0) in H. simpl in H. lia.
  - intros opts L HL H1. pose proof (getFeed_length db opts) as H.
    rewrite HL in H. pose proof (clamp_limit_positive H1). lia.
  - intros opts H0. pose proof (getFeed_length db opts) as H.
    rewrite (clamp_limit_default H0) in H. simpl in H. lia.
  - apply fetchLikedPosts_length.
Qed.

Lemma page_size_ceiling_witness :
  Z.of_nat (List.length (fetchPosts (Samples.liked_store 31)
                                    (Samples.posts_opts "alice" (Some 5))))
  <= Z.min 5 30.
Proof.
  apply (proj1 (page_size_ceiling (Samples.liked_store 31))
               (Samples.posts_opts "alice" (Some 5)) 5);
    [reflexivity | lia].
Defined.

(** A negative limit is not clamped: [take: -31] pages backwards over 31
    rows. *)
Example fetchPosts_negative_limit :
  List.length (fetchPosts (Samples.liked_store 40)
                          (Samples.posts_opts "alice" (Some (-31)))) = 31%nat.
Proof. vm_compute. reflexivity. Qed.

(** ** Block filtering of the paginated reads (C3) *)

Lemma existsb_filter {A} (g cond : A -> bool) (l : list A) :
  existsb cond (filter g l) = existsb (fun x => g x && cond x) l.
Proof.
  induction l as [|a l IH]; simpl; [reflexivity|].
  destruct (g a); simpl; now rewrite IH.
Qed.

Lemma existsb_pointwise {A} (f g : A -> bool) (l : list A) :
  (forall x, f x = g x) -> existsb f l = existsb g l.
Proof.
  intros H. induction l as [|a l IH]; simpl; [reflexivity|].
  now rewrite H, IH.
Qed.

Lemma not_blocked_by_author_spec requester db author :
  not_blocked_by_author requester db author
  = negb (has_blocked db author requester).
Proof.
  unfold not_blocked_by_author, none, user_friends, has_blocked.
  rewrite existsb_filter. f_equal. apply existsb_pointwise. intros f.
  destruct (FriendStatus_eqb (f_status f) BLOCKED),
           (String.eqb (f_userId f) author); reflexivity.
Qed.


Lemma pv_post_constructInclude db requester continueIter p :
  pv_post (constructInclude db requester continueIter p) = p.
Proof. reflexivity. Qed.

(** The rows behind a page of [fetchPosts] satisfy the assembled [where]. *)
Lemma fetchPosts_In db opts v :
  In v (fetchPosts db opts) ->
  In (pv_post v) (posts db)
  /\ post_matches db (fetchPosts_where opts) (pv_post v) = true.
Proof.
  unfold fetchPosts. intros H. apply in_rev, in_map_iff in H.
  destruct H as [p [<- Hp]]. rewrite pv_post_constructInclude.
  now apply findMany_In in Hp.
Qed.






(** ** Page order (C8) *)

Lemma created_desc_total a b :
  created_desc a b = true \/ created_desc b a = true.
Proof. unfold created_desc. rewrite !Z.leb_le. lia. Qed.

Lemma created_desc_trans a b c :
  created_desc a b = true -> created_desc b c = true ->
  created_desc a c = true.
Proof. unfold created_desc. rewrite !Z.leb_le. lia. Qed.








(** ** Block-aware redaction of a direct fetch (C4) *)

Section Redaction.
Variable isUserBlocked : list Friend -> Id -> Id -> bool.
Variable db : DB.
Variable requesterUserId : Id.

Lemma template_placeholder bypassBlocked :
  truthy_bool bypassBlocked = false ->
  forall n v,
    (chain_depth v <= n)%nat ->
    placeholder_of isUserBlocked db requesterUserId v
      (constructBlockedPostTemplate isUserBlocked db requesterUserId
                                    bypassBlocked v).
Proof.
  intros Hb. induction n as [|n IH]; intros v Hn.
  - destruct v as [row poll [c|] author nl nc lb att]; simpl in Hn; [lia|].
    simpl.
    apply (@placeholder_node isUserBlocked db requesterUserId
             (mkPostView row poll None author nl nc lb att)).
    constructor.
  - destruct v as [row poll [c|] author nl nc lb att]; simpl in Hn.
    + simpl. rewrite Hb. simpl.
      apply (@placeholder_node isUserBlocked db requesterUserId
               (mkPostView row poll (Some c) author nl nc lb att)).
      simpl.
      destruct (isUserBlocked (friends db) requesterUserId
                              (createdById (pv_post c))) eqn:E.
      * apply parent_redacted; [exact E | apply IH; lia].
      * now apply parent_passed.
    + simpl.
      apply (@placeholder_node isUserBlocked db requesterUserId
               (mkPostView row poll None author nl nc lb att)).
      constructor.
Qed.

Lemma template_unfold bypassBlocked v :
  constructBlockedPostTemplate isUserBlocked db requesterUserId
                               bypassBlocked v
  = BlockedPost (p_id (pv_post v)) (commentToId (pv_post v))
                (pv_createdBy v)
                (template_parent isUserBlocked db requesterUserId
                                 bypassBlocked v)
                (quotedPostId (pv_post v)).
Proof. destruct v; reflexivity. Qed.

Lemma template_parent_redacted bypassBlocked v :
  truthy_bool bypassBlocked = false ->
  redacted_parent isUserBlocked db requesterUserId (pv_commentTo v)
    (template_parent isUserBlocked db requesterUserId bypassBlocked v).
Proof.
  intros Hb. unfold template_parent.
  destruct (pv_commentTo v) as [c|]; [|constructor].
  rewrite Hb. simpl.
  destruct (isUserBlocked (friends db) requesterUserId
                          (createdById (pv_post c))) eqn:E.
  - apply parent_redacted; [exact E|].
    now apply (@template_placeholder bypassBlocked Hb (chain_depth c)).
  - now apply parent_passed.
Qed.

(** A placeholder carries none of the content, counts, likes, attachments
    or poll of the post. *)
Lemma placeholder_keys v r :
  placeholder_of isUserBlocked db requesterUserId v r ->
  keys r = [K_id; K_commentToId; K_createdBy; K_commentTo; K_quotedPostId;
            K_block].
Proof. intros H. destruct H. reflexivity. Qed.
End Redaction.

(** C4 (amended): a post fetched directly by [fetchPost], bypass not
    requested, whose author the gate reports as blocked for the viewer, comes
    back as a placeholder that keeps the post's identifier, its parent-link
    identifier, its author reference, its quoted-post identifier and the
    [block] marker, and drops content, counts, likes, attachments and poll;
    a blocked parent in the fetched [commentTo] chain is a placeholder of
    the same shape, and the walk stops at a parent that is absent or not
    blocked, which is passed through unredacted. *)
Theorem fetchPost_redaction
    (isUserBlocked : list Friend -> Id -> Id -> bool)
    (db : DB) (opts : FetchPostOpts) (row : Post) :
  truthy_bool (po_bypassBlocked opts) = false ->
  fetchPost_row db (po_postId opts) = Some row ->
  isUserBlocked (friends db) (po_requesterUserId opts) (createdById row)
  = true ->
  exists parent,
    fetchPost isUserBlocked db opts
    = Some (BlockedPost (p_id row) (commentToId row)
              (pv_createdBy
                 (constructInclude db (po_requesterUserId opts) true row))
              parent (quotedPostId row))
    /\ redacted_parent isUserBlocked db (po_requesterUserId opts)
         (pv_commentTo (constructInclude db (po_requesterUserId opts) true row))
         parent
    /\ forall r, fetchPost isUserBlocked db opts = Some r ->
         has_key K_block r = true
         /\ has_key K_content r = false
         /\ has_key K_count r = false
         /\ has_key K_likedBy r = false
         /\ has_key K_attachments r = false
         /\ has_key K_poll r = false.
Proof.
  intros Hb Hrow Hblocked.
  unfold fetchPost. rewrite Hrow, Hb. simpl negb. cbv iota. rewrite Hblocked.
  rewrite template_unfold.
  eexists. split; [reflexivity|]. split.
  - now apply template_parent_redacted.
  - intros r Hr. injection Hr as <-. repeat split.
Qed.

(** C4 (as stated, refuted): the placeholder does not keep only the
    identifier, the parent link, the author and the marker; the quoted-post
    identifier of the blocked post is kept too. *)
Lemma fetchPost_redaction_counterexample :
  gate_isUserBlocked (friends RedactionSamples.thread) "alice" "bob" = true
  /\ exists author parent,
       fetchPost gate_isUserBlocked RedactionSamples.thread
                 RedactionSamples.fetch_p2
       = Some (BlockedPost "p2" (Some "p1") author parent (Some "q9"))
       /\ has_key K_quotedPostId
            (BlockedPost "p2" (Some "p1") author parent (Some "q9")) = true.
Proof. split; [reflexivity|]. do 2 eexists. split; reflexivity. Qed.

Lemma fetchPost_redaction_witness :
  exists parent,
    fetchPost gate_isUserBlocked RedactionSamples.thread
              RedactionSamples.fetch_p2
    = Some (BlockedPost "p2" (Some "p1") (Some (Samples.user "bob")) parent
                        (Some "q9"))
    /\ redacted_parent gate_isUserBlocked RedactionSamples.thread "alice"
         (Some (constructInclude RedactionSamples.thread "alice" false
                                 (Samples.post "p1" "carol" 1)))
         parent.
Proof.
  destruct (@fetchPost_redaction gate_isUserBlocked RedactionSamples.thread
              RedactionSamples.fetch_p2 RedactionSamples.p2
              eq_refl eq_refl eq_refl) as [parent [H1 [H2 _]]].
  exists parent. split; [exact H1 | exact H2].
Defined.

(** ** Poll votes (C5) *)

Lemma find_app_r {A} (f : A -> bool) (l1 l2 : list A) :
  find f l1 = None -> find f (l1 ++ l2) = find f l2.
Proof.
  induction l1 as [|a l1 IH]; simpl; [reflexivity|].
  destruct (f a); [discriminate | auto].
Qed.

Section Votes.
Variable getBlockedUserIds : list Friend -> list Id -> Id -> list Id.

Abbreviation vote := (votePostPoll getBlockedUserIds).


(** A successful vote adds the voter's row and nothing else. *)
Lemma vote_ok_inserts db db' requesterId postId pollId choiceId voteId :
  vote db requesterId postId pollId choiceId voteId = (db', Ok true) ->
  vote_of db requesterId pollId = None
  /\ db' = set_postPollVotedUsers
             (create (vote_row voteId requesterId pollId choiceId)) db.
Proof.
  unfold votePostPoll, vote_of.
  repeat match goal with
         | |- context [match ?x with _ => _ end] => destruct x eqn:?
         end; intros H; try discriminate.
  injection H as <-. split; reflexivity.
Qed.



End Votes.



(** A second call that names a choice outside the poll stops at the choice
    check: it is an error, but not the already-voted one. *)
Example second_vote_unknown_choice :
  votePostPoll gate_getBlockedUserIds VoteSamples.voted
               "alice" "p1" "poll1" "c9" "v2"
  = (VoteSamples.voted, Err (generateError "Poll not found.")).
Proof. reflexivity. Qed.

(** ** Post notifications (C6, C7) *)

Lemma PostNotificationType_eqb_eq a b :
  PostNotificationType_eqb a b = true <-> a = b.
Proof. destruct a, b; simpl; split; congruence. Qed.

Lemma option_id_eqb_eq a b : option_id_eqb a b = true <-> a = b.
Proof.
  destruct a as [x|], b as [y|]; simpl; split; try congruence.
  - intros H. apply String.eqb_eq in H. congruence.
  - intros H. injection H as ->. apply String.eqb_refl.
Qed.

Lemma truthy_string_Some s x :
  truthy_string s = Some x -> s = Some x /\ x <> EmptyString.
Proof.
  destruct s as [y|]; simpl; [|discriminate].
  destruct (String.eqb y EmptyString) eqn:E; [discriminate|].
  intros H. injection H as ->. split; [reflexivity|].
  now apply String.eqb_neq.
Qed.

(** A call either leaves the store as it is or commits the row together
    with the increment of the recipient's counter. *)
Lemma notify_cases db opts newId tx :
  createPostNotification db opts newId tx = db
  \/ exists toId account,
       resolve_toId db opts = Some (Some toId)
       /\ toId <> EmptyString /\ toId <> cn_byId opts
       /\ findFirst (same_notification (cn_byId opts) toId (cn_type opts)
                                       (cn_postId opts))
                    (postNotifications db) = None
       /\ tx = Stored
       /\ user_account db toId = Some account
       /\ createPostNotification db opts newId tx
          = notified db opts newId toId.
Proof.
  unfold createPostNotification.
  destruct (resolve_toId db opts) as [toId|]; [|now left].
  destruct (truthy_string toId) as [to|] eqn:Ht; [|now left].
  apply truthy_string_Some in Ht. destruct Ht as [-> Hne].
  destruct (String.eqb to (cn_byId opts)) eqn:Hself; [now left|].
  destruct (findFirst _ (postNotifications db)) eqn:Hex; [now left|].
  destruct tx; [|now left].
  destruct (user_account db to) as [a|] eqn:Ha; [|now left].
  right. exists to, a. apply String.eqb_neq in Hself.
  repeat split; assumption.
Qed.

Lemma is_tuple_same byId toId type postId n :
  is_tuple byId toId type postId n = true ->
  same_notification byId toId type postId n = true.
Proof.
  unfold is_tuple, same_notification. intros H.
  apply andb_prop in H. destruct H as [H Hp]. rewrite H. simpl.
  apply option_id_eqb_eq in Hp. rewrite Hp.
  destruct postId as [pid|]; simpl; [apply String.eqb_refl | reflexivity].
Qed.

Lemma same_notification_row newId opts toId :
  same_notification (cn_byId opts) toId (cn_type opts) (cn_postId opts)
                    (notification_row newId opts toId) = true.
Proof.
  unfold same_notification. simpl. rewrite !String.eqb_refl.
  destruct (cn_type opts), (cn_postId opts); simpl;
    rewrite ?String.eqb_refl; reflexivity.
Qed.

Lemma is_tuple_row byId toId type postId newId opts to :
  is_tuple byId toId type postId (notification_row newId opts to) = true ->
  byId = cn_byId opts /\ toId = to /\ type = cn_type opts
  /\ postId = cn_postId opts.
Proof.
  unfold is_tuple. simpl. intros H.
  repeat (apply andb_prop in H; destruct H as [H ?]).
  apply String.eqb_eq in H. apply String.eqb_eq in H2.
  apply PostNotificationType_eqb_eq in H1. apply option_id_eqb_eq in H0.
  repeat split; congruence.
Qed.

Lemma filter_nil_of_find_none {A} (f g : A -> bool) (l : list A) :
  (forall x, g x = true -> f x = true) ->
  find f l = None -> filter g l = [].
Proof.
  intros Hgf. induction l as [|a l IH]; simpl; [reflexivity|].
  destruct (f a) eqn:Hf; [discriminate|]. intros H.
  destruct (g a) eqn:Hg; [|auto].
  apply Hgf in Hg. congruence.
Qed.

Lemma find_updateMany_account toId (f : Account -> Account) l :
  (forall a, a_userId (f a) = a_userId a) ->
  forall u,
    find (fun a => String.eqb (a_userId a) u)
         (updateMany (fun a => String.eqb (a_userId a) toId) f l)
    = if String.eqb u toId
      then option_map f (find (fun a => String.eqb (a_userId a) u) l)
      else find (fun a => String.eqb (a_userId a) u) l.
Proof.
  intros Hf u. unfold updateMany.
  induction l as [|a l IH]; simpl.
  - now destruct (String.eqb u toId).
  - destruct (String.eqb (a_userId a) toId) eqn:Ea.
    + rewrite Hf. destruct (String.eqb (a_userId a) u) eqn:Eu.
      * apply String.eqb_eq in Ea, Eu. subst.
        now rewrite String.eqb_refl.
      * exact IH.
    + destruct (String.eqb (a_userId a) u) eqn:Eu; [|exact IH].
      apply String.eqb_eq in Eu. subst. now rewrite Ea.
Qed.

Lemma unread_notified db opts newId toId u :
  unread (notified db opts newId toId) u
  = if String.eqb u toId
    then option_map (fun n => n + 1) (unread db u)
    else unread db u.
Proof.
  unfold unread, user_account, notified, findFirst. simpl.
  rewrite find_updateMany_account by reflexivity.
  destruct (String.eqb u toId); [|reflexivity].
  now destruct (find _ (accounts db)).
Qed.

Lemma notified_again db opts newId toId newId' tx' :
  resolve_toId db opts = Some (Some toId) ->
  toId <> EmptyString -> toId <> cn_byId opts ->
  findFirst (same_notification (cn_byId opts) toId (cn_type opts)
                               (cn_postId opts))
            (postNotifications db) = None ->
  createPostNotification (notified db opts newId toId) opts newId' tx'
  = notified db opts newId toId.
Proof.
  intros Hres Hne Hself Hex. unfold createPostNotification.
  change (resolve_toId (notified db opts newId toId) opts)
    with (resolve_toId db opts).
  rewrite Hres. simpl truthy_string.
  apply String.eqb_neq in Hne, Hself. rewrite Hne, Hself.
  unfold notified at 1. simpl postNotifications. unfold create, findFirst.
  unfold findFirst in Hex. rewrite (find_app_r _ _ _ Hex). simpl.
  now rewrite same_notification_row.
Qed.

Lemma notify_preserves_unique db opts newId tx :
  unique_notifications db ->
  unique_notifications (createPostNotification db opts newId tx).
Proof.
  intros Hu.
  destruct (notify_cases db opts newId tx)
    as [->|[to [a [_ [_ [_ [Hex [_ [_ ->]]]]]]]]]; [exact Hu|].
  intros byId toId type postId. unfold tuple_rows, notified, create. simpl.
  rewrite filter_app, length_app. simpl.
  destruct (is_tuple byId toId type postId (notification_row newId opts to))
    eqn:Hrow; simpl.
  - apply is_tuple_row in Hrow. destruct Hrow as [-> [-> [-> ->]]].
    rewrite (filter_nil_of_find_none _ _ _
               (is_tuple_same (cn_byId opts) to (cn_type opts) (cn_postId opts))
               Hex).
    simpl. lia.
  - specialize (Hu byId toId type postId). unfold tuple_rows in Hu. lia.
Qed.

Lemma notify_all_unique calls : forall db,
  unique_notifications db -> unique_notifications (notify_all db calls).
Proof.
  induction calls as [|c calls IH]; intros db Hu; [exact Hu|].
  simpl. apply IH. now apply notify_preserves_unique.
Qed.

(** C6: [createPostNotification] keeps at most one row per (actor,
    recipient, type, subject post) tuple, so a store that starts without
    notifications never holds two rows of one tuple; when a notification is due (the
    recipient resolves, is not the actor, has an account, no row of the
    tuple exists and the transaction is stored) the first of two identical
    calls appends the row and adds one to the recipient's unread counter and
    the second changes nothing; whatever the arguments, two identical calls
    together commit at most one row with its one increment; and a call whose
    resolved recipient is the actor changes nothing. *)
Theorem notification_dedup (db : DB) (opts : CreatePostNotificationProps)
    (id1 id2 : Id) (tx1 tx2 : StorageOutcome) :
  (unique_notifications db ->
   unique_notifications (createPostNotification db opts id1 tx1))
  /\ (forall calls,
        postNotifications db = [] ->
        unique_notifications (notify_all db calls))
  /\ (forall toId account,
        resolve_toId db opts = Some (Some toId) ->
        toId <> EmptyString -> toId <> cn_byId opts ->
        findFirst (same_notification (cn_byId opts) toId (cn_type opts)
                                     (cn_postId opts))
                  (postNotifications db) = None ->
        user_account db toId = Some account ->
        tx1 = Stored ->
        postNotifications (createPostNotification db opts id1 tx1)
        = (postNotifications db ++ [notification_row id1 opts toId])%list
        /\ unread (createPostNotification db opts id1 tx1) toId
           = Some (postNotificationCount account + 1)
        /\ (forall u, u <> toId ->
              unread (createPostNotification db opts id1 tx1) u = unread db u)
        /\ createPostNotification (createPostNotification db opts id1 tx1)
                                  opts id2 tx2
           = createPostNotification db opts id1 tx1)
  /\ (createPostNotification (createPostNotification db opts id1 tx1)
                             opts id2 tx2 = db
      \/ exists newId toId,
           createPostNotification (createPostNotification db opts id1 tx1)
                                  opts id2 tx2
           = notified db opts newId toId)
  /\ (forall toId,
        resolve_toId db opts = Some (Some toId) ->
        toId = cn_byId opts ->
        createPostNotification db opts id1 tx1 = db).
Proof.
  split; [apply notify_preserves_unique|].
  split.
  { intros calls Hnil. apply notify_all_unique.
    intros byId toId type postId. unfold tuple_rows. rewrite Hnil. simpl. lia. }
  split.
  { intros toId account Hres Hne Hself Hex Hacc ->.
    assert (Hfirst : createPostNotification db opts id1 Stored
                     = notified db opts id1 toId).
    { unfold createPostNotification. rewrite Hres. simpl truthy_string.
      apply String.eqb_neq in Hne, Hself. rewrite Hne, Hself, Hex, Hacc.
      reflexivity. }
    rewrite Hfirst. split; [reflexivity|]. split.
    - rewrite unread_notified, String.eqb_refl. unfold unread.
      now rewrite Hacc.
    - split.
      + intros u Hu. rewrite unread_notified.
        apply String.eqb_neq in Hu. now rewrite Hu.
      + now apply notified_again. }
  split.
  { destruct (notify_cases db opts id1 tx1)
      as [->|[to [a [Hres [Hne [Hself [Hex [_ [_ ->]]]]]]]]].
    - destruct (notify_cases db opts id2 tx2)
        as [->|[to [a [_ [_ [_ [_ [_ [_ ->]]]]]]]]];
        [now left | right; now exists id2, to].
    - right. exists id1, to. now apply notified_again. }
  intros toId Hres ->. unfold createPostNotification. rewrite Hres.
  simpl truthy_string.
  destruct (String.eqb (cn_byId opts) EmptyString); [reflexivity|].
  now rewrite String.eqb_refl.
Qed.

Lemma notification_dedup_witness :
  unread (createPostNotification NotificationSamples.replied_store
            NotificationSamples.liked_p1 "n1" Stored) "bob" = Some (0 + 1)
  /\ createPostNotification
       (createPostNotification NotificationSamples.replied_store
          NotificationSamples.liked_p1 "n1" Stored)
       NotificationSamples.liked_p1 "n2" Stored
     = createPostNotification NotificationSamples.replied_store
         NotificationSamples.liked_p1 "n1" Stored.
Proof.
  destruct (proj1 (proj2 (proj2 (notification_dedup
                                   NotificationSamples.replied_store
                            NotificationSamples.liked_p1 "n1" "n2"
                            Stored Stored)))
              "bob" {| a_userId := "bob"; postNotificationCount := 0 |}
              eq_refl)
    as [_ [Hcount [_ Hagain]]];
    try reflexivity; try discriminate.
  split; [exact Hcount | exact Hagain].
Defined.

(** C7: for type [REPLIED] with subject post [p] the recipient is the author
    of the post [p] is a comment to, not [p]'s own author, and no
    notification is created when [p] has no parent or no recipient is
    resolved; for [LIKED] the recipient is the subject post's author; for
    [FOLLOWED], which has no subject, it is the recipient the caller
    supplies; and a row that is created is addressed to the resolved
    recipient. *)
Theorem notification_recipient (db : DB) (opts : CreatePostNotificationProps)
    (newId : Id) (tx : StorageOutcome) :
  (forall pid p,
     cn_type opts = REPLIED -> cn_postId opts = Some pid ->
     post_by_id db pid = Some p ->
     resolve_toId db opts = Some (option_map createdById (post_commentTo db p))
     /\ (post_commentTo db p = None ->
         createPostNotification db opts newId tx = db))
  /\ (forall pid p,
        cn_type opts = LIKED -> cn_postId opts = Some pid ->
        post_by_id db pid = Some p ->
        resolve_toId db opts = Some (Some (createdById p)))
  /\ (cn_type opts = FOLLOWED -> resolve_toId db opts = Some (cn_toId opts))
  /\ (resolve_toId db opts = None \/ resolve_toId db opts = Some None ->
      createPostNotification db opts newId tx = db)
  /\ (createPostNotification db opts newId tx <> db ->
      exists toId,
        resolve_toId db opts = Some (Some toId)
        /\ postNotifications (createPostNotification db opts newId tx)
           = (postNotifications db
              ++ [{| n_id := newId; n_byId := cn_byId opts; n_toId := toId;
                     n_type := cn_type opts; n_postId := cn_postId opts |}])%list).
Proof.
  split.
  { intros pid p Hty Hpid Hp.
    assert (Hres : resolve_toId db opts
                   = Some (option_map createdById (post_commentTo db p))).
    { unfold resolve_toId. rewrite Hty, Hpid.
      change (findFirst (where_id_is (Some pid)) (posts db))
        with (post_by_id db pid).
      now rewrite Hp. }
    split; [exact Hres|].
    intros Hnone. unfold createPostNotification.
    rewrite Hres, Hnone. reflexivity. }
  split.
  { intros pid p Hty Hpid Hp. unfold resolve_toId. rewrite Hty, Hpid.
    change (findFirst (where_id_is (Some pid)) (posts db))
      with (post_by_id db pid).
    now rewrite Hp. }
  split.
  { intros Hty. unfold resolve_toId. now rewrite Hty. }
  split.
  { unfold createPostNotification. now intros [-> | ->]. }
  intros Hchanged.
  destruct (notify_cases db opts newId tx)
    as [Hsame|[to [a [Hres [_ [_ [_ [_ [_ Heq]]]]]]]]];
    [now destruct Hchanged|].
  exists to. split; [exact Hres|]. now rewrite Heq.
Qed.

Lemma notification_recipient_witness :
  resolve_toId NotificationSamples.replied_store
               NotificationSamples.replied_p2 = Some (Some "bob")
  /\ map n_toId
         (postNotifications
            (createPostNotification NotificationSamples.replied_store
               NotificationSamples.replied_p2 "n1" Stored)) = ["bob"].
Proof.
  split; [|reflexivity].
  exact (proj1 (proj1 (notification_recipient
                         NotificationSamples.replied_store
                         NotificationSamples.replied_p2 "n1" Stored)
                      "p2" (Samples.reply "p2" "alice" "p1" 2)
                      eq_refl eq_refl eq_refl)).
Defined.

(** ** Soft deletion (C1) *)

Lemma updateMany_In {A} (w : A -> bool) (f : A -> A) (l : list A) (y : A) :
  In y (updateMany w f l) ->
  exists x, In x l /\ y = if w x then f x else x.
Proof.
  unfold updateMany. intros H. apply in_map_iff in H.
  destruct H as [x [<- Hx]]. now exists x.
Qed.

Lemma deleteMany_In {A} (w : A -> bool) (l : list A) (x : A) :
  In x (deleteMany w l) -> In x l /\ w x = false.
Proof.
  unfold deleteMany. intros H. apply filter_In in H.
  destruct H as [H Hw]. split; [exact H|]. now apply negb_true_iff.
Qed.

Section Deletion.
Variables (db db' : DB) (postId userId : Id).

(** The user-initiated path establishes the whole soft-delete shape for
    the post it deletes. *)
Lemma deletePost_soft_deleted :
  deletePost db postId userId = (db', Ok true) ->
  (forall p, In p (posts db') -> p_id p = postId ->
             deleted p = Some true /\ content p = None
             /\ estimateLikes p = 0)
  /\ (forall l, In l (postLikes db') -> l_postId l <> postId)
  /\ (forall q, In q (postPolls db') -> poll_postId q <> postId)
  /\ (forall a, In a (attachments db') -> at_postId a <> postId).
Proof.
  unfold deletePost.
  destruct (findFirst _ (posts db)); [|discriminate].
  intros H. injection H as <-. simpl. repeat split.
  - apply updateMany_In in H. destruct H as [x [_ ->]].
    destruct (String.eqb (p_id x) postId) eqn:E; [reflexivity|].
    apply String.eqb_neq in E. contradiction.
  - apply updateMany_In in H. destruct H as [x [_ ->]].
    destruct (String.eqb (p_id x) postId) eqn:E; [reflexivity|].
    apply String.eqb_neq in E. contradiction.
  - apply updateMany_In in H. destruct H as [x [_ ->]].
    destruct (String.eqb (p_id x) postId) eqn:E; [reflexivity|].
    apply String.eqb_neq in E. contradiction.
  - intros l Hl. apply deleteMany_In in Hl. destruct Hl as [_ Hl].
    now apply String.eqb_neq.
  - intros q Hq. apply deleteMany_In in Hq. destruct Hq as [_ Hq].
    now apply String.eqb_neq.
  - intros a Ha. apply deleteMany_In in Ha. destruct Ha as [_ Ha].
    now apply String.eqb_neq.
Qed.
End Deletion.

Lemma deletePost_soft_deleted_witness :
  deleted (soft_delete_user (Samples.post "p1" "bob" 1)) = Some true
  /\ content (soft_delete_user (Samples.post "p1" "bob" 1)) = None
  /\ estimateLikes (soft_delete_user (Samples.post "p1" "bob" 1)) = 0.
Proof.
  apply (proj1 (@deletePost_soft_deleted LikeSamples.unliked_store
                  (fst (deletePost LikeSamples.unliked_store "p1" "bob"))
                  "p1" "bob" eq_refl)
               (soft_delete_user (Samples.post "p1" "bob" 1))).
  - left. reflexivity.
  - reflexivity.
Defined.

(** The sweep never writes [estimateLikes]: every post keeps the counter it
    had, swept or not. *)
Lemma sweep_estimateLikes db :
  map estimateLikes (posts (scheduleDeleteAccountContent db))
  = map estimateLikes (posts db).
Proof.
  unfold scheduleDeleteAccountContent. cbv zeta.
  repeat match goal with
         | |- context [if nonempty ?l then _ else _] => destruct (nonempty l)
         end; simpl; try reflexivity.
  all: unfold updateMany; rewrite map_map; apply map_ext; intros p.
  all: now destruct (id_in _ (p_id p)).
Qed.

(** C1 (the code at the failing input): the sweep soft-deletes p1, nulls
    its content and removes its three likes, but leaves its approximate
    like counter at 3, where [deletePost] on the same post writes 0. *)
Theorem sweep_leaves_like_counter :
  map (fun p => (p_id p, deleted p, content p, estimateLikes p))
      (posts (scheduleDeleteAccountContent DeletionSamples.scheduled_store))
  = [("p1", Some true, None, 3)]
  /\ postLikes (scheduleDeleteAccountContent DeletionSamples.scheduled_store)
     = []
  /\ map (fun p => (p_id p, deleted p, content p, estimateLikes p))
         (posts (fst (deletePost DeletionSamples.scheduled_store "p1" "bob")))
     = [("p1", Some true, None, 0)].
Proof. repeat split. Qed.

(** ** Error returns and the store (C9) *)

Section ErrorReturns.
Variable isUserBlocked : list Friend -> Id -> Id -> bool.
Variable getBlockedUserIds : list Friend -> list Id -> Id -> list Id.
Variable replaceBadWords : string -> string.
Variable trim : string -> string.

Lemma createPost_error_unchanged db opts postId attachmentId pollId choiceId
    now notificationId tx :
  isErr (snd (createPost getBlockedUserIds replaceBadWords trim db opts
                         postId attachmentId pollId choiceId now
                         notificationId tx)) = true ->
  fst (createPost getBlockedUserIds replaceBadWords trim db opts postId
                  attachmentId pollId choiceId now notificationId tx) = db.
Proof.
  unfold createPost.
  destruct (truthy_string (co_commentToId opts)) as [target|];
    [|discriminate].
  destruct (post_by_id db target) as [comment|]; [|reflexivity].
  destruct (getBlockedUserIds _ _ _); [discriminate | reflexivity].
Qed.

Lemma editPost_error_unchanged db opts now upd :
  isErr (snd (editPost replaceBadWords trim db opts now upd)) = true ->
  fst (editPost replaceBadWords trim db opts now upd) = db.
Proof.
  unfold editPost.
  destruct (findFirst _ (posts db)); [|reflexivity].
  destruct upd; [|reflexivity].
  destruct (post_by_id _ _); [discriminate | reflexivity].
Qed.

Lemma unlikePost_error_unchanged db userId postId :
  isErr (snd (unlikePost isUserBlocked db userId postId)) = true ->
  fst (unlikePost isUserBlocked db userId postId) = db.
Proof.
  unfold unlikePost.
  destruct (findFirst _ (postLikes db)); [discriminate | reflexivity].
Qed.

Lemma deletePost_error_unchanged db postId userId :
  isErr (snd (deletePost db postId userId)) = true ->
  fst (deletePost db postId userId) = db.
Proof.
  unfold deletePost.
  destruct (findFirst _ (posts db)); [discriminate | reflexivity].
Qed.

(** The three validation errors of [likePost] are returned before any
    write. *)
Lemma likePost_validation_unchanged db userId postId likeId now ins
    notificationId tx e :
  snd (likePost isUserBlocked getBlockedUserIds db userId postId likeId now
                ins notificationId tx) = Err e ->
  e <> generateError "Something went wrong! Try again later." ->
  fst (likePost isUserBlocked getBlockedUserIds db userId postId likeId now
                ins notificationId tx) = db.
Proof.
  unfold likePost.
  destruct (findFirst _ (posts db)); [|reflexivity].
  destruct (findFirst _ (postLikes db)); [reflexivity|].
  destruct (getBlockedUserIds _ _ _); [|reflexivity].
  destruct ins; simpl; [discriminate|].
  intros H. injection H as <-. intros Hne. now destruct Hne.
Qed.

(** When the like row is rejected the counter has already been raised. *)
Lemma likePost_rejected_insert db userId postId likeId now notificationId
    tx post :
  findFirst (fun p => is_null (deleted p) && String.eqb (p_id p) postId)
            (posts db) = Some post ->
  findFirst (fun l => String.eqb (likedById l) userId
                      && String.eqb (l_postId l) postId)
            (postLikes db) = None ->
  getBlockedUserIds (friends db) [createdById post] userId = [] ->
  likePost isUserBlocked getBlockedUserIds db userId postId likeId now
           Rejected notificationId tx
  = (set_posts (updateMany (fun p => String.eqb (p_id p) postId)
                           (set_estimateLikes (fun n => n + 1)))
               db,
     Err (generateError "Something went wrong! Try again later.")).
Proof. unfold likePost. now intros -> -> ->. Qed.
End ErrorReturns.

(** C9 (the code at the failing input): alice likes bob's post and the
    storage layer rejects the like row; [likePost] returns its generic
    error, yet the post's approximate like counter has gone from 0 to 1 and
    no like row exists. *)
Theorem likePost_failed_insert_keeps_increment :
  map estimateLikes (posts LikeSamples.unliked_store) = [0]
  /\ snd (likePost gate_isUserBlocked gate_getBlockedUserIds
                   LikeSamples.unliked_store "alice" "p1" "l1" 5 Rejected
                   "n1" Stored)
     = Err (generateError "Something went wrong! Try again later.")
  /\ map estimateLikes
         (posts (fst (likePost gate_isUserBlocked gate_getBlockedUserIds
                               LikeSamples.unliked_store "alice" "p1" "l1" 5
                               Rejected "n1" Stored)))
     = [1]
  /\ postLikes (fst (likePost gate_isUserBlocked gate_getBlockedUserIds
                              LikeSamples.unliked_store "alice" "p1" "l1" 5
                              Rejected "n1" Stored))
     = [].
Proof. repeat split. Qed.

(** ** Soft-deleted posts and the direct fetch (C10) *)

Lemma find_none_iff {A} (f : A -> bool) (l : list A) :
  find f l = None <-> forall x, In x l -> f x = false.
Proof.
  split; [apply find_none|].
  induction l as [|a l IH]; simpl; intros H; [reflexivity|].
  rewrite (H a (or_introl eq_refl)). apply IH. auto.
Qed.

Lemma fetchPost_row_In db postId row :
  fetchPost_row db postId = Some row ->
  In row (posts db) /\ p_id row = postId.
Proof.
  unfold fetchPost_row. intros H.
  destruct (findMany _ _ _ _ _ (posts db)) as [|r rows] eqn:E;
    [discriminate|].
  injection H as ->.
  assert (Hin : In row (findMany (fun p => String.eqb (p_id p) postId)
                                 (Some created_desc) None None (Some 50)
                                 (posts db)))
    by (rewrite E; now left).
  apply findMany_In in Hin. destruct Hin as [Hin Hid].
  split; [exact Hin | now apply String.eqb_eq].
Qed.

Lemma fetchPost_row_found db postId :
  (exists p, In p (posts db) /\ p_id p = postId) ->
  exists row, fetchPost_row db postId = Some row.
Proof.
  intros [p [Hp Hid]]. unfold fetchPost_row, findMany. simpl.
  assert (Hf : In p (filter (fun q => String.eqb (p_id q) postId) (posts db))).
  { apply filter_In. split; [exact Hp|]. subst. apply String.eqb_refl. }
  apply (orderBy_In created_desc) in Hf.
  destruct (orderBy created_desc _) as [|r rows]; [destruct Hf|].
  now exists r.
Qed.

(** C10: [fetchPost] applies no soft-delete filter: for a soft-deleted post
    identifier it returns a result rather than not-found, built from the
    stored row with its deleted flag set and its content as stored (null
    when the stored content is null): the post record itself, or its
    placeholder when the gate reports the author as blocked for a
    non-bypassing viewer; whereas [editPost], [likePost]
    and [getPostLikes] filter on [deleted: null], report the post as not
    found and leave the store as it is. *)
Theorem soft_deleted_fetch
    (isUserBlocked : list Friend -> Id -> Id -> bool)
    (getBlockedUserIds : list Friend -> list Id -> Id -> list Id)
    (replaceBadWords trim : string -> string)
    (db : DB) (postId : Id) :
  soft_deleted db postId ->
  (forall requesterUserId bypassBlocked,
     exists row r,
       fetchPost isUserBlocked db
                 {| po_postId := postId;
                    po_requesterUserId := requesterUserId;
                    po_bypassBlocked := bypassBlocked |} = Some r
       /\ In row (posts db) /\ p_id row = postId
       /\ deleted row = Some true
       /\ ((forall p, In p (posts db) -> p_id p = postId ->
                      content p = None) ->
           content row = None)
       /\ r = if negb (truthy_bool bypassBlocked)
                 && isUserBlocked (friends db) requesterUserId
                                  (createdById row)
              then constructBlockedPostTemplate isUserBlocked db
                     requesterUserId bypassBlocked
                     (constructInclude db requesterUserId true row)
              else FullPost (constructInclude db requesterUserId true row))
  /\ (forall editById content now upd,
        editPost replaceBadWords trim db
                 {| eo_editById := editById; eo_postId := postId;
                    eo_content := content |} now upd
        = (db, Err (generateError "Post not found")))
  /\ (forall userId likeId now ins notificationId tx,
        likePost isUserBlocked getBlockedUserIds db userId postId likeId now
                 ins notificationId tx
        = (db, Err (generateError "Post not found")))
  /\ getPostLikes db postId = Err (generateError "Post not found").
Proof.
  intros [Hex Hdel].
  assert (Hnone : forall extra : Post -> bool,
             findFirst (fun p => extra p && is_null (deleted p)
                                 && String.eqb (p_id p) postId)
                       (posts db) = None).
  { intros extra. apply find_none_iff. intros p Hp.
    destruct (String.eqb (p_id p) postId) eqn:E;
      [|now rewrite andb_false_r].
    apply String.eqb_eq in E. rewrite (Hdel p Hp E). simpl.
    now rewrite andb_false_r. }
  split.
  { intros requesterUserId bypassBlocked.
    destruct (fetchPost_row_found db Hex) as [row Hrow].
    destruct (fetchPost_row_In db postId Hrow) as [Hin Hid].
    exists row. unfold fetchPost. simpl. rewrite Hrow.
    destruct (truthy_bool bypassBlocked) eqn:Hb; simpl.
    - eexists. repeat split; auto.
    - destruct (isUserBlocked (friends db) requesterUserId (createdById row));
        eexists; repeat split; auto. }
  split.
  { intros editById c now upd. unfold editPost. simpl.
    now rewrite (Hnone (fun p => String.eqb (createdById p) editById)). }
  split.
  { intros userId likeId now ins notificationId tx. unfold likePost.
    pose proof (Hnone (fun _ => true)) as H. simpl in H. now rewrite H. }
  unfold getPostLikes. pose proof (Hnone (fun _ => true)) as H. simpl in H.
  now rewrite H.
Qed.

Lemma soft_deleted_fetch_witness :
  (exists r,
     fetchPost gate_isUserBlocked SoftDeleteSamples.after_delete
               {| po_postId := "p1"; po_requesterUserId := "alice";
                  po_bypassBlocked := None |} = Some r)
  /\ getPostLikes SoftDeleteSamples.after_delete "p1"
     = Err (generateError "Post not found").
Proof.
  assert (Hsd : soft_deleted SoftDeleteSamples.after_delete "p1").
  { split.
    - eexists. split; [left; reflexivity | reflexivity].
    - intros p [<-|[]] _. reflexivity. }
  destruct (@soft_deleted_fetch gate_isUserBlocked gate_getBlockedUserIds
              (fun s => s) (fun s => s) SoftDeleteSamples.after_delete "p1"
              Hsd) as [Hfetch [_ [_ Hlikes]]].
  split; [|exact Hlikes].
  destruct (Hfetch "alice" None) as [row [r [Hr _]]]. now exists r.
Defined.

(** * Properties of the further operations *)

(** ** More facts about the Prisma primitives *)

Lemma findMany_all {A} (where_ : A -> bool) le table :
  forall x, In x (findMany where_ le None None None table)
            <-> In x table /\ where_ x = true.
Proof.
  intros x. unfold findMany. simpl. rewrite <- filter_In.
  destruct le as [f|]; [apply orderBy_In | tauto].
Qed.

(** A [take] that the selection fits in cuts nothing. *)
Lemma findMany_fits {A} (where_ : A -> bool) le n table :
  0 <= n ->
  (List.length (filter where_ table) <= Z.to_nat n)%nat ->
  forall x, In x (findMany where_ le None None (Some n) table)
            <-> In x table /\ where_ x = true.
Proof.
  intros Hn Hlen x. unfold findMany. simpl.
  apply Z.leb_le in Hn. rewrite Hn. rewrite <- filter_In.
  destruct le as [f|].
  - rewrite firstn_all2 by (rewrite orderBy_length; exact Hlen).
    apply orderBy_In.
  - rewrite firstn_all2 by exact Hlen. tauto.
Qed.

Lemma sorted_head {A} (R : A -> A -> Prop) (l : list A) (r : A) :
  StronglySorted R l -> hd_error l = Some r ->
  forall x, In x l -> x = r \/ R r x.
Proof.
  destruct l as [|a l]; simpl; [discriminate|].
  intros Hs H. injection H as ->. intros x [->|Hx]; [now left|].
  right. apply StronglySorted_inv in Hs. destruct Hs as [_ Hr].
  rewrite Forall_forall in Hr. now apply Hr.
Qed.

(** ** What [fetchPosts] selects *)

Lemma truthy_bool_false_negb b : truthy_bool b = false -> negb (truthy_bool b) = true.
Proof. now intros ->. Qed.

(** Whatever [where], ordering, cursor or limit the caller passes,
    [fetchPosts] returns no soft-deleted post; [userId] restricts the page
    to that author; [postId] restricts it to the comments of that post,
    with or without [withReplies]; without [postId] and [withReplies] only
    top-level posts are returned; [beforeId] keeps the strictly greater
    identifiers, and [afterId], the strictly smaller ones, applies only when
    [beforeId] is not given. *)
Theorem fetchPosts_selection (db : DB) (opts : FetchPostsOpts) (v : PostView) :
  In v (fetchPosts db opts) ->
  deleted (pv_post v) = None
  /\ (forall u, truthy_string (fo_userId opts) = Some u ->
                createdById (pv_post v) = u)
  /\ (forall pid, truthy_string (fo_postId opts) = Some pid ->
                  commentToId (pv_post v) = Some pid)
  /\ (truthy_string (fo_postId opts) = None ->
      truthy_bool (fo_withReplies opts) = false ->
      commentToId (pv_post v) = None)
  /\ (forall b, truthy_string (fo_beforeId opts) = Some b ->
                String.ltb b (p_id (pv_post v)) = true)
  /\ (forall a, truthy_string (fo_beforeId opts) = None ->
                truthy_string (fo_afterId opts) = Some a ->
                String.ltb (p_id (pv_post v)) a = true).
Proof.
  intros Hv. apply fetchPosts_In in Hv. destruct Hv as [_ Hm].
  unfold post_matches, fetchPosts_where in Hm. simpl in Hm.
  apply andb_prop in Hm. destruct Hm as [Hm _].
  apply andb_prop in Hm. destruct Hm as [Hm Hdel].
  apply andb_prop in Hm. destruct Hm as [Hm _].
  apply andb_prop in Hm. destruct Hm as [Hm Hct].
  apply andb_prop in Hm. destruct Hm as [Hid Hby].
  split.
  { now destruct (deleted (pv_post v)). }
  split.
  { intros u Hu. rewrite Hu in Hby. simpl in Hby.
    now apply String.eqb_eq in Hby. }
  split.
  { intros pid Hpid. rewrite Hpid in Hct. simpl in Hct.
    unfold equals_id in Hct.
    destruct (commentToId (pv_post v)) as [z|]; [|discriminate].
    apply String.eqb_eq in Hct. now subst. }
  split.
  { intros Hpid Hw. rewrite Hpid, Hw in Hct. simpl in Hct.
    now destruct (commentToId (pv_post v)). }
  split.
  { intros b Hb. rewrite Hb in Hid. exact Hid. }
  intros a Hb Ha. rewrite Hb, Ha in Hid. exact Hid.
Qed.

Lemma fetchPosts_selection_witness :
  map (fun v => p_id (pv_post v))
      (fetchPosts OrderSamples.two_posts (Samples.posts_opts "alice" None))
  = ["p1"; "p2"]
  /\ deleted (Samples.post "p1" "alice" 1) = None.
Proof.
  split; [reflexivity|].
  apply (proj1 (@fetchPosts_selection OrderSamples.two_posts
                  (Samples.posts_opts "alice" None)
                  (constructInclude OrderSamples.two_posts "alice" true
                                    (Samples.post "p1" "alice" 1))
                  (or_introl eq_refl))).
Defined.

(** When [beforeId] is given [afterId] has no effect, and when [postId] is
    given [withReplies] has none: the later key of the [where] literal
    replaces the earlier one. *)
Theorem fetchPosts_later_key_wins (db : DB) (opts : FetchPostsOpts) :
  (forall b afterId,
     truthy_string (fo_beforeId opts) = Some b ->
     fetchPosts db (with_afterId afterId opts) = fetchPosts db opts)
  /\ (forall pid withReplies,
        truthy_string (fo_postId opts) = Some pid ->
        fetchPosts db (with_withReplies withReplies opts)
        = fetchPosts db opts).
Proof.
  split.
  - intros b afterId Hb. unfold fetchPosts, fetchPosts_where. simpl.
    rewrite Hb. reflexivity.
  - intros pid withReplies Hp. unfold fetchPosts, fetchPosts_where. simpl.
    rewrite Hp. reflexivity.
Qed.

(** ** What [getFeed] selects *)

Lemma follows_spec db viewer author :
  some (fun f => String.eqb (followedById f) viewer)
       (user_followers db author)
  = follows db viewer author.
Proof.
  unfold some, user_followers, follows. rewrite existsb_filter.
  apply existsb_pointwise. intros f. apply andb_comm.
Qed.

Lemma getFeed_matches db opts p :
  post_matches db (getFeed_where opts) p
  = holds (where_id (getFeed_where opts)) (p_id p)
    && in_feed db (go_userId opts) p.
Proof.
  unfold post_matches, in_feed. simpl. rewrite follows_spec.
  destruct (holds _ (p_id p)), (is_null (commentToId p)),
           (is_null (deleted p)); reflexivity.
Qed.

(** Every post of the feed is a top-level, undeleted post written by the
    viewer or by someone the viewer follows; and when no cursor and no limit
    is given and at most 30 such posts exist, the feed holds every one of
    them. *)
Theorem getFeed_membership (db : DB) (opts : GetFeedOpts) :
  (forall v, In v (getFeed db opts) ->
     In (pv_post v) (posts db)
     /\ commentToId (pv_post v) = None
     /\ deleted (pv_post v) = None
     /\ (createdById (pv_post v) = go_userId opts
         \/ follows db (go_userId opts) (createdById (pv_post v)) = true))
  /\ (truthy_string (go_afterId opts) = None ->
      truthy_string (go_beforeId opts) = None ->
      truthy_number (go_limit opts) = None ->
      (List.length (filter (in_feed db (go_userId opts)) (posts db)) <= 30)%nat ->
      forall p, In p (posts db) -> in_feed db (go_userId opts) p = true ->
                In (constructInclude db (go_userId opts) true p)
                   (getFeed db opts)).
Proof.
  split.
  - intros v Hv. unfold getFeed in Hv. apply in_map_iff in Hv.
    destruct Hv as [p [<- Hp]]. rewrite pv_post_constructInclude.
    apply findMany_In in Hp. destruct Hp as [Hin Hm].
    rewrite getFeed_matches in Hm. apply andb_prop in Hm.
    destruct Hm as [_ Hm]. unfold in_feed in Hm.
    apply andb_prop in Hm. destruct Hm as [Hm Hauthor].
    apply andb_prop in Hm. destruct Hm as [Hct Hdel].
    split; [exact Hin|].
    split; [now destruct (commentToId p)|].
    split; [now destruct (deleted p)|].
    apply orb_prop in Hauthor. destruct Hauthor as [H|H]; [left | now right].
    now apply String.eqb_eq.
  - intros Ha Hb Hl Hlen p Hp Hfeed. unfold getFeed. apply in_map.
    assert (Hext : forall q, post_matches db (getFeed_where opts) q
                             = in_feed db (go_userId opts) q).
    { intros q. rewrite getFeed_matches. simpl. now rewrite Ha, Hb. }
    unfold clamp_limit. rewrite Hl.
    apply findMany_fits; [lia | |].
    + rewrite (filter_ext _ _ Hext). exact Hlen.
    + split; [exact Hp | now rewrite Hext].
Qed.

Lemma getFeed_membership_witness :
  In (constructInclude FeedSamples.followed_store "alice" true
                       (Samples.post "p2" "bob" 2))
     (getFeed FeedSamples.followed_store (Samples.feed_opts "alice" None))
  /\ map (fun v => p_id (pv_post v))
         (getFeed FeedSamples.followed_store (Samples.feed_opts "alice" None))
     = ["p2"; "p1"].
Proof.
  split; [|reflexivity].
  apply (proj2 (getFeed_membership FeedSamples.followed_store
                  (Samples.feed_opts "alice" None))
               eq_refl eq_refl eq_refl).
  - vm_compute. lia.
  - right. left. reflexivity.
  - reflexivity.
Defined.

(** ** [fetchLatestPost] *)

(** [fetchLatestPost] returns an undeleted top-level post of the user, none
    of whose undeleted top-level posts is newer; it returns nothing exactly
    when the user has no such post or, bypass not requested, has blocked the
    requester. *)
Theorem fetchLatestPost_latest (db : DB) (opts : fetchLatestPostOpts) :
  (forall v, fetchLatestPost db opts = Some v ->
     In (pv_post v) (posts db)
     /\ deleted (pv_post v) = None
     /\ commentToId (pv_post v) = None
     /\ createdById (pv_post v) = la_userId opts
     /\ (truthy_bool (la_bypassBlocked opts) = false ->
         has_blocked db (la_userId opts) (la_requesterUserId opts) = false)
     /\ forall p, In p (posts db) ->
          deleted p = None -> commentToId p = None ->
          createdById p = la_userId opts ->
          createdAt p <= createdAt (pv_post v))
  /\ (fetchLatestPost db opts = None <->
      (truthy_bool (la_bypassBlocked opts) = false
       /\ has_blocked db (la_userId opts) (la_requesterUserId opts) = true)
      \/ forall p, In p (posts db) ->
           deleted p = None -> commentToId p = None ->
           createdById p <> la_userId opts).
Proof.
  unfold fetchLatestPost.
  set (w := fun p : Post =>
              is_null (deleted p) && is_null (commentToId p)
              && String.eqb (createdById p) (la_userId opts)
              && (if negb (truthy_bool (la_bypassBlocked opts))
                  then not_blocked_by_author (la_requesterUserId opts) db
                                             (createdById p)
                  else true)).
  assert (Hw : forall p,
             w p = true <->
             deleted p = None /\ commentToId p = None
             /\ createdById p = la_userId opts
             /\ (truthy_bool (la_bypassBlocked opts) = false ->
                 has_blocked db (la_userId opts) (la_requesterUserId opts)
                 = false)).
  { intros p. unfold w. rewrite !andb_true_iff, String.eqb_eq.
    rewrite not_blocked_by_author_spec.
    destruct (deleted p), (commentToId p); simpl;
      try (split; [intros [[[? ?] ?] ?]; discriminate
                  | intros [? [? ?]]; discriminate]).
    split.
    - intros [[_ Hu] Hb]. repeat split; try assumption.
      intros Hbp. rewrite Hbp in Hb. simpl in Hb. rewrite Hu in Hb.
      now apply negb_true_iff in Hb.
    - intros [_ [_ [Hu Hb]]]. repeat split; try assumption.
      destruct (truthy_bool (la_bypassBlocked opts)); simpl; [reflexivity|].
      rewrite Hu, (Hb eq_refl). reflexivity. }
  pose proof (findMany_sorted created_desc w None None None (posts db)
                created_desc_total created_desc_trans) as Hsorted.
  pose proof (findMany_all w (Some created_desc) (posts db)) as Hall.
  destruct (findMany w (Some created_desc) None None None (posts db))
    as [|r rows] eqn:E; simpl.
  - split; [discriminate|]. split; [|reflexivity]. intros _.
    destruct (truthy_bool (la_bypassBlocked opts)) eqn:Hb.
    + right. intros p Hp Hd Hc Hu.
      apply (proj2 (Hall p)). split; [exact Hp|].
      apply Hw. repeat split; try assumption. discriminate.
    + destruct (has_blocked db (la_userId opts) (la_requesterUserId opts))
        eqn:Hblk; [now left|].
      right. intros p Hp Hd Hc Hu.
      apply (proj2 (Hall p)). split; [exact Hp|].
      apply Hw. repeat split; assumption.
  - assert (Hr : In r (posts db) /\ w r = true)
      by (apply Hall; now left).
    destruct Hr as [Hin Hwr]. apply Hw in Hwr.
    destruct Hwr as [Hd [Hc [Hu Hb]]].
    split.
    + intros v Hv. injection Hv as <-. rewrite pv_post_constructInclude.
      repeat split; try assumption.
      intros p Hp Hdp Hcp Hup.
      assert (Hpin : In p (r :: rows)).
      { apply Hall. split; [exact Hp|]. apply Hw. repeat split; assumption. }
      destruct (sorted_head Hsorted eq_refl p Hpin) as [->|Hle]; [lia|].
      unfold created_desc in Hle. now apply Z.leb_le in Hle.
    + split; [discriminate|]. intros [[Hbp Hblk]|Hnone].
      * rewrite (Hb Hbp) in Hblk. discriminate.
      * now destruct (Hnone r Hin Hd Hc).
Qed.

(** ** Likes *)

Lemma notify_keeps_posts_likes db opts newId tx :
  posts (createPostNotification db opts newId tx) = posts db
  /\ postLikes (createPostNotification db opts newId tx) = postLikes db.
Proof.
  destruct (notify_cases db opts newId tx)
    as [->|[to [a [_ [_ [_ [_ [_ [_ ->]]]]]]]]]; split; reflexivity.
Qed.

Lemma find_updateMany_preserved {A} (pred g : A -> bool) (f : A -> A) l :
  (forall x, pred (f x) = pred x) ->
  find pred (updateMany g f l)
  = option_map (fun x => if g x then f x else x) (find pred l).
Proof.
  intros Hf. unfold updateMany. induction l as [|a l IH]; simpl;
    [reflexivity|].
  destruct (g a) eqn:G; rewrite ?Hf; destruct (pred a); simpl;
    rewrite ?G; auto.
Qed.

Lemma find_none_filter_nil {A} (f : A -> bool) (l : list A) :
  find f l = None -> filter f l = [].
Proof. apply filter_nil_of_find_none. auto. Qed.

Lemma set_estimateLikes_undo p :
  set_estimateLikes (fun n => n - 1) (set_estimateLikes (fun n => n + 1) p)
  = p.
Proof.
  destruct p. unfold set_estimateLikes. simpl. f_equal. lia.
Qed.

Lemma updateMany_undo (w : Post -> bool) (f g : Post -> Post) l :
  (forall p, w (f p) = w p) -> (forall p, g (f p) = p) ->
  updateMany w g (updateMany w f l) = l.
Proof.
  intros Hw Hg. unfold updateMany. rewrite map_map.
  rewrite <- (map_id l) at 2. apply map_ext. intros p.
  destruct (w p) eqn:E; [|now rewrite E].
  now rewrite Hw, E, Hg.
Qed.

Lemma filter_fresh_id (lid : Id) (l : list PostLike) (x : PostLike) :
  l_id x = lid ->
  (forall y, In y l -> l_id y <> lid) ->
  deleteMany (fun y => String.eqb (l_id y) lid) (l ++ [x]) = l.
Proof.
  intros Hx Hl. unfold deleteMany. rewrite filter_app. simpl.
  rewrite Hx, String.eqb_refl. simpl. rewrite app_nil_r.
  induction l as [|a l IH]; simpl; [reflexivity|].
  assert (Ha : String.eqb (l_id a) lid = false)
    by (apply String.eqb_neq, Hl; now left).
  rewrite Ha. simpl. f_equal. apply IH. intros y Hy. apply Hl. now right.
Qed.

Section LikeFacts.
Variable isUserBlocked : list Friend -> Id -> Id -> bool.
Variable getBlockedUserIds : list Friend -> list Id -> Id -> list Id.

Abbreviation like := (likePost isUserBlocked getBlockedUserIds).

Lemma like_ok_inv db db' userId postId likeId now ins notificationId tx r :
  like db userId postId likeId now ins notificationId tx = (db', Ok r) ->
  (exists post,
     findFirst (fun p => is_null (deleted p) && String.eqb (p_id p) postId)
               (posts db) = Some post)
  /\ findFirst (fun l => String.eqb (likedById l) userId
                         && String.eqb (l_postId l) postId)
               (postLikes db) = None
  /\ db' = createPostNotification
             (with_like db userId postId likeId now)
             {| cn_toId := None; cn_byId := userId;
                cn_postId := Some postId; cn_type := LIKED |}
             notificationId tx.
Proof.
  unfold likePost.
  destruct (findFirst _ (posts db)) as [post|]; [|discriminate].
  destruct (findFirst _ (postLikes db)) eqn:Hl; [discriminate|].
  destruct (getBlockedUserIds _ _ _); [|discriminate].
  destruct ins; [|discriminate].
  intros H. injection H as <- _. split; [now exists post|].
  split; reflexivity.
Qed.
End LikeFacts.

(** Liking a post and then unliking it restores the posts table, counter
    included, and the likes table; the notification the like raised and the
    recipient's unread counter stay as the like left them. *)
Theorem like_unlike_roundtrip
    (isUserBlocked : list Friend -> Id -> Id -> bool)
    (getBlockedUserIds : list Friend -> list Id -> Id -> list Id)
    (db db1 : DB) (userId postId likeId : Id) (now : Z) (ins : StorageOutcome)
    (notificationId : Id) (tx : StorageOutcome) (r : option FetchedPost) :
  likePost isUserBlocked getBlockedUserIds db userId postId likeId now ins
           notificationId tx = (db1, Ok r) ->
  (forall l, In l (postLikes db) -> l_id l <> likeId) ->
  isErr (snd (unlikePost isUserBlocked db1 userId postId)) = false
  /\ posts (fst (unlikePost isUserBlocked db1 userId postId)) = posts db
  /\ postLikes (fst (unlikePost isUserBlocked db1 userId postId))
     = postLikes db
  /\ postNotifications (fst (unlikePost isUserBlocked db1 userId postId))
     = postNotifications db1
  /\ accounts (fst (unlikePost isUserBlocked db1 userId postId))
     = accounts db1.
Proof.
  intros Hlike Hfresh.
  destruct (like_ok_inv _ _ _ _ _ _ _ _ _ _ Hlike) as [_ [Hnone ->]].
  set (opts := {| cn_toId := None; cn_byId := userId;
                  cn_postId := Some postId; cn_type := LIKED |}).
  destruct (notify_keeps_posts_likes (with_like db userId postId likeId now)
              opts notificationId tx) as [Hp Hl].
  unfold unlikePost. rewrite Hl. unfold with_like at 1. simpl postLikes.
  unfold create, findFirst. unfold findFirst in Hnone.
  rewrite (find_app_r _ _ _ Hnone). simpl find.
  rewrite !String.eqb_refl. simpl.
  split; [reflexivity|]. split.
  - rewrite Hp. unfold with_like. simpl.
    apply updateMany_undo; [reflexivity | apply set_estimateLikes_undo].
  - split; [|split; reflexivity].
    rewrite Hl. unfold with_like. simpl. now apply filter_fresh_id.
Qed.

Lemma unique_likes_ext db db' :
  postLikes db' = postLikes db -> unique_likes db -> unique_likes db'.
Proof.
  intros H Hu userId postId. unfold likes_of_pair. rewrite H. apply Hu.
Qed.

Lemma likes_counted_ext db db' :
  posts db' = posts db -> postLikes db' = postLikes db ->
  likes_counted db -> likes_counted db'.
Proof.
  intros Hp Hl Hc p Hin. unfold likes_of_post. rewrite Hl.
  apply Hc. now rewrite <- Hp.
Qed.

Lemma unique_likes_with_like db userId postId likeId now :
  findFirst (fun l => String.eqb (likedById l) userId
                      && String.eqb (l_postId l) postId)
            (postLikes db) = None ->
  unique_likes db -> unique_likes (with_like db userId postId likeId now).
Proof.
  intros Hnone Hu u q. unfold likes_of_pair, with_like, create. simpl.
  rewrite filter_app, length_app. simpl.
  destruct (String.eqb userId u && String.eqb postId q) eqn:E; simpl.
  - apply andb_prop in E. destruct E as [Eu Eq].
    apply String.eqb_eq in Eu, Eq. subst.
    rewrite (find_none_filter_nil _ _ Hnone). simpl. lia.
  - specialize (Hu u q). unfold likes_of_pair in Hu. lia.
Qed.

Lemma likes_counted_with_like db userId postId likeId now :
  likes_counted db -> likes_counted (with_like db userId postId likeId now).
Proof.
  intros Hc p' Hin. unfold with_like in Hin. simpl in Hin.
  apply updateMany_In in Hin. destruct Hin as [x [Hx ->]].
  specialize (Hc x Hx). unfold likes_of_post, with_like, create. simpl.
  rewrite filter_app, length_app. simpl.
  destruct (String.eqb (p_id x) postId) eqn:E; simpl.
  - apply String.eqb_eq in E. subst. rewrite String.eqb_refl. simpl.
    unfold likes_of_post in Hc. lia.
  - rewrite String.eqb_sym, E. simpl. unfold likes_of_post in Hc. lia.
Qed.

Lemma filter_other_ids (lid : Id) (l : list PostLike) :
  ~ In lid (map l_id l) ->
  filter (fun y => negb (String.eqb (l_id y) lid)) l = l.
Proof.
  induction l as [|a l IH]; simpl; intros H; [reflexivity|].
  destruct (String.eqb (l_id a) lid) eqn:E.
  - apply String.eqb_eq in E. destruct H. now left.
  - simpl. f_equal. apply IH. tauto.
Qed.

Lemma filter_In_length {A} (P : A -> bool) (l : list A) (x : A) :
  In x l -> P x = true -> (1 <= List.length (filter P l))%nat.
Proof.
  intros Hin HP.
  assert (H : In x (filter P l)) by (apply filter_In; now split).
  destruct (filter P l); [destruct H | simpl; lia].
Qed.

(** Removing a row by its identifier, unique in the table, lowers a count
    by one exactly when the row is counted. *)
Lemma length_filter_remove (P : PostLike -> bool) (l : list PostLike) pl :
  NoDup (map l_id l) -> In pl l ->
  List.length
    (filter P (deleteMany (fun y => String.eqb (l_id y) (l_id pl)) l))
  = (List.length (filter P l) - (if P pl then 1 else 0))%nat.
Proof.
  unfold deleteMany. induction l as [|a l IH]; simpl; intros Hnd Hin;
    [destruct Hin|].
  apply NoDup_cons_iff in Hnd. destruct Hnd as [Ha Hnd].
  destruct Hin as [->|Hin].
  - rewrite String.eqb_refl. simpl. rewrite (@filter_other_ids _ l Ha).
    destruct (P pl); simpl; lia.
  - assert (E : String.eqb (l_id a) (l_id pl) = false).
    { apply String.eqb_neq. intros Heq. apply Ha. rewrite Heq.
      now apply in_map. }
    rewrite E. simpl. specialize (IH Hnd Hin).
    destruct (P a); simpl; [|exact IH].
    rewrite IH. destruct (P pl) eqn:EP; [|lia].
    pose proof (@filter_In_length _ P l pl Hin EP). lia.
Qed.

Lemma likes_of_deleted_post q (l : list PostLike) :
  filter (fun y => String.eqb (l_postId y) q)
         (filter (fun r => negb (String.eqb (l_postId r) q)) l) = [].
Proof.
  induction l as [|a l IH]; simpl; [reflexivity|].
  destruct (String.eqb (l_postId a) q) eqn:Ea; simpl;
    [exact IH | now rewrite Ea].
Qed.

Lemma likes_of_other_post q q' (l : list PostLike) :
  String.eqb q' q = false ->
  filter (fun y => String.eqb (l_postId y) q')
         (filter (fun r => negb (String.eqb (l_postId r) q)) l)
  = filter (fun y => String.eqb (l_postId y) q') l.
Proof.
  intros E. induction l as [|a l IH]; simpl; [reflexivity|].
  destruct (String.eqb (l_postId a) q) eqn:Ea; simpl.
  - apply String.eqb_eq in Ea. subst q.
    rewrite String.eqb_sym, E. exact IH.
  - now rewrite IH.
Qed.

(** A user has at most one like per post: [likePost] keeps that, and once a
    like has gone through, liking the same post again is refused as already
    liked and changes nothing. *)
Theorem likePost_once
    (isUserBlocked : list Friend -> Id -> Id -> bool)
    (getBlockedUserIds : list Friend -> list Id -> Id -> list Id)
    (db : DB) (userId postId likeId : Id) (now : Z) (ins : StorageOutcome)
    (notificationId : Id) (tx : StorageOutcome) :
  (unique_likes db ->
   unique_likes (fst (likePost isUserBlocked getBlockedUserIds db userId
                               postId likeId now ins notificationId tx)))
  /\ (forall db1 r,
        likePost isUserBlocked getBlockedUserIds db userId postId likeId now
                 ins notificationId tx = (db1, Ok r) ->
        forall likeId' now' ins' notificationId' tx',
          likePost isUserBlocked getBlockedUserIds db1 userId postId likeId'
                   now' ins' notificationId' tx'
          = (db1, Err (generateError "You have already liked this post!"))).
Proof.
  split.
  - intros Hu. unfold likePost.
    destruct (findFirst _ (posts db)) as [post|]; [|exact Hu].
    destruct (findFirst _ (postLikes db)) eqn:Hl; [exact Hu|].
    destruct (getBlockedUserIds _ _ _); [|exact Hu].
    destruct ins; [|exact Hu].
    simpl fst.
    eapply unique_likes_ext;
      [apply notify_keeps_posts_likes
      | exact (@unique_likes_with_like db userId postId likeId now Hl Hu)].
  - intros db1 r Hlike likeId' now' ins' notificationId' tx'.
    destruct (like_ok_inv _ _ _ _ _ _ _ _ _ _ Hlike)
      as [[post Hpost] [Hnone ->]].
    set (opts := {| cn_toId := None; cn_byId := userId;
                    cn_postId := Some postId; cn_type := LIKED |}).
    destruct (notify_keeps_posts_likes (with_like db userId postId likeId now)
                opts notificationId tx) as [Hp Hl].
    unfold likePost. rewrite Hp, Hl. unfold with_like at 1 2.
    simpl posts. simpl postLikes. unfold findFirst.
    rewrite find_updateMany_preserved by reflexivity.
    unfold findFirst in Hpost, Hnone. rewrite Hpost. simpl option_map.
    unfold create. rewrite (find_app_r _ _ _ Hnone). simpl find.
    now rewrite !String.eqb_refl.
Qed.

(** The approximate like counter stays equal to the number of like rows
    through a like that is stored, through an unlike (like identifiers being
    unique) and through [deletePost]. *)
Theorem likes_counter_consistent
    (isUserBlocked : list Friend -> Id -> Id -> bool)
    (getBlockedUserIds : list Friend -> list Id -> Id -> list Id)
    (db : DB) (userId postId : Id) :
  likes_counted db ->
  (forall likeId now notificationId tx,
     likes_counted (fst (likePost isUserBlocked getBlockedUserIds db userId
                                  postId likeId now Stored notificationId tx)))
  /\ (NoDup (map l_id (postLikes db)) ->
      likes_counted (fst (unlikePost isUserBlocked db userId postId)))
  /\ likes_counted (fst (deletePost db postId userId)).
Proof.
  intros Hc. split.
  { intros likeId now notificationId tx. unfold likePost.
    destruct (findFirst _ (posts db)) as [post|]; [|exact Hc].
    destruct (findFirst _ (postLikes db)); [exact Hc|].
    destruct (getBlockedUserIds _ _ _); [|exact Hc].
    simpl fst.
    eapply likes_counted_ext;
      [apply notify_keeps_posts_likes | apply notify_keeps_posts_likes
      | exact (@likes_counted_with_like db userId postId likeId now Hc)]. }
  split.
  { intros Hnd. unfold unlikePost.
    destruct (findFirst _ (postLikes db)) as [pl|] eqn:Hpl; [|exact Hc].
    apply find_some in Hpl. destruct Hpl as [Hin Hpair].
    apply andb_prop in Hpair. destruct Hpair as [_ Hq].
    apply String.eqb_eq in Hq.
    intros p' Hp'. simpl in Hp'. apply updateMany_In in Hp'.
    destruct Hp' as [x [Hx ->]]. specialize (Hc x Hx).
    unfold likes_of_post in *. simpl postLikes.
    assert (Hid : p_id (if String.eqb (p_id x) postId
                        then set_estimateLikes (fun n => n - 1) x else x)
                  = p_id x)
      by (now destruct (String.eqb (p_id x) postId)).
    rewrite Hid, (@length_filter_remove
                   (fun l => String.eqb (l_postId l) (p_id x))
                   (postLikes db) pl Hnd Hin), Hq.
    destruct (String.eqb (p_id x) postId) eqn:E; simpl.
    - apply String.eqb_eq in E. rewrite <- E. rewrite String.eqb_refl.
      pose proof (@filter_In_length _
                    (fun l => String.eqb (l_postId l) (p_id x))
                    (postLikes db) pl Hin) as Hone.
      simpl in Hone.
      rewrite Hq, <- E, String.eqb_refl in Hone. specialize (Hone eq_refl).
      lia.
    - rewrite String.eqb_sym, E. lia. }
  unfold deletePost.
  destruct (findFirst _ (posts db)); [|exact Hc].
  intros p' Hp'. simpl in Hp'. apply updateMany_In in Hp'.
  destruct Hp' as [x [Hx ->]]. specialize (Hc x Hx).
  unfold likes_of_post in *. simpl postLikes. unfold deleteMany.
  destruct (String.eqb (p_id x) postId) eqn:E; simpl.
  - apply String.eqb_eq in E. subst postId.
    now rewrite likes_of_deleted_post.
  - rewrite Hc. now rewrite likes_of_other_post.
Qed.

(** ** Editing and creating posts *)

Lemma find_app_l {A} (f : A -> bool) (l1 l2 : list A) (x : A) :
  find f l1 = Some x -> find f (l1 ++ l2) = Some x.
Proof.
  induction l1 as [|a l1 IH]; simpl; [discriminate|].
  destruct (f a); auto.
Qed.

(** Only the author of an undeleted post can edit it: any other editor gets
    "Post not found" and the store stays as it is.  A successful edit
    returns the post with the cleaned-up text and the edit time, leaves every
    post with another identifier as it was, and changes no post's
    identifier, author, parent, deletion flag, counters or creation time,
    nor any other table. *)
Theorem editPost_author_only
    (replaceBadWords trim : string -> string)
    (db : DB) (opts : EditPostOpts) (now : Z) (upd : StorageOutcome) :
  ((forall p, In p (posts db) -> p_id p = eo_postId opts ->
              createdById p <> eo_editById opts \/ deleted p <> None) ->
   editPost replaceBadWords trim db opts now upd
   = (db, Err (generateError "Post not found")))
  /\ (forall db' v,
        editPost replaceBadWords trim db opts now upd = (db', Ok v) ->
        (exists p, In p (posts db) /\ p_id p = eo_postId opts
                   /\ createdById p = eo_editById opts /\ deleted p = None)
        /\ p_id (pv_post v) = eo_postId opts
        /\ content (pv_post v)
           = Some (replaceBadWords (trim (eo_content opts)))
        /\ editedAt (pv_post v) = Some now
        /\ map post_frame (posts db') = map post_frame (posts db)
        /\ (forall p, p_id p <> eo_postId opts ->
                      (In p (posts db') <-> In p (posts db)))
        /\ db' = set_posts (fun _ => posts db') db).
Proof.
  split.
  - intros Hnot. unfold editPost.
    destruct (findFirst _ (posts db)) as [p|] eqn:Hp; [|reflexivity].
    apply find_some in Hp. destruct Hp as [Hin Hp].
    apply andb_prop in Hp. destruct Hp as [Hp Hid].
    apply andb_prop in Hp. destruct Hp as [Hby Hdel].
    apply String.eqb_eq in Hid, Hby.
    destruct (Hnot p Hin Hid) as [H|H]; [contradiction|].
    now destruct (deleted p).
  - intros db' v. unfold editPost.
    destruct (findFirst _ (posts db)) as [p|] eqn:Hp; [|discriminate].
    destruct upd; [|discriminate].
    set (f := set_content (Some (replaceBadWords (trim (eo_content opts))))
                          now).
    destruct (post_by_id _ (eo_postId opts)) as [newPost|] eqn:Hnew;
      [|discriminate].
    intros H. injection H as <- <-.
    apply find_some in Hp. destruct Hp as [Hin Hp].
    apply andb_prop in Hp. destruct Hp as [Hp Hid].
    apply andb_prop in Hp. destruct Hp as [Hby Hdel].
    apply String.eqb_eq in Hid, Hby.
    unfold post_by_id, findFirst in Hnew. simpl posts in Hnew.
    rewrite find_updateMany_preserved in Hnew by reflexivity.
    destruct (find _ (posts db)) as [x|] eqn:Hx; [|discriminate].
    apply find_some in Hx. destruct Hx as [_ Hgx].
    simpl in Hnew. rewrite Hgx in Hnew. injection Hnew as <-.
    split.
    { exists p. repeat split; try assumption. now destruct (deleted p). }
    rewrite pv_post_constructInclude. simpl.
    split; [now apply String.eqb_eq|].
    split; [reflexivity|]. split; [reflexivity|].
    split.
    { unfold updateMany. rewrite map_map. apply map_ext. intros q.
      now destruct (String.eqb (p_id q) (eo_postId opts)). }
    split; [|reflexivity].
    intros q Hq. unfold updateMany. rewrite in_map_iff. split.
    + intros [y [Hy Hiny]].
      destruct (String.eqb (p_id y) (eo_postId opts)) eqn:Gy.
      * subst q. simpl in Hq. apply String.eqb_eq in Gy. contradiction.
      * now subst.
    + intros Hinq. exists q. split; [|exact Hinq].
      apply String.eqb_neq in Hq. now rewrite Hq.
Qed.

(** A notification writes the notification rows and the accounts only. *)
Lemma notify_frame db opts newId tx :
  users (createPostNotification db opts newId tx) = users db
  /\ posts (createPostNotification db opts newId tx) = posts db
  /\ postPolls (createPostNotification db opts newId tx) = postPolls db
  /\ postPollChoices (createPostNotification db opts newId tx)
     = postPollChoices db
  /\ postPollVotedUsers (createPostNotification db opts newId tx)
     = postPollVotedUsers db
  /\ attachments (createPostNotification db opts newId tx) = attachments db
  /\ announcementPosts (createPostNotification db opts newId tx)
     = announcementPosts db
  /\ friends (createPostNotification db opts newId tx) = friends db
  /\ followers (createPostNotification db opts newId tx) = followers db.
Proof.
  destruct (notify_cases db opts newId tx)
    as [->|[to [a [_ [_ [_ [_ [_ [_ ->]]]]]]]]]; repeat split.
Qed.

Lemma map_snd_combine {A B} (l1 : list A) (l2 : list B) :
  List.length l1 = List.length l2 -> map snd (combine l1 l2) = l2.
Proof.
  revert l2. induction l1 as [|a l1 IH]; intros [|b l2]; simpl;
    try discriminate; [reflexivity|].
  intros H. f_equal. apply IH. lia.
Qed.

(** A post that is created is appended to the posts table as an undeleted
    post of the caller with no likes and no views, carrying the cleaned-up
    text; a reply is only created under an existing post whose author the
    gate does not report as blocked for the caller; a poll is created
    exactly when at least one choice is given, belongs to the new post and
    holds the given choices in the given order; an attachment row, when one
    is given, belongs to the new post. *)
Theorem createPost_effects
    (getBlockedUserIds : list Friend -> list Id -> Id -> list Id)
    (replaceBadWords trim : string -> string)
    (db db' : DB) (opts : CreatePostOpts) (postId attachmentId pollId : Id)
    (choiceId : nat -> Id) (now : Z) (notificationId : Id)
    (tx : StorageOutcome) (v : PostView) :
  createPost getBlockedUserIds replaceBadWords trim db opts postId
             attachmentId pollId choiceId now notificationId tx
  = (db', Ok v) ->
  (exists row,
     posts db' = (posts db ++ [row])%list
     /\ pv_post v = row
     /\ p_id row = postId /\ createdById row = co_userId opts
     /\ deleted row = None /\ estimateLikes row = 0 /\ views row = 0
     /\ createdAt row = now
     /\ commentToId row = truthy_string (co_commentToId opts)
     /\ content row
        = option_map (fun c => replaceBadWords (trim c))
                     (truthy_string (co_content opts)))
  /\ (forall target,
        truthy_string (co_commentToId opts) = Some target ->
        exists comment,
          post_by_id db target = Some comment
          /\ getBlockedUserIds (friends db) [createdById comment]
                               (co_userId opts) = [])
  /\ postPolls db'
     = (postPolls db
        ++ match co_poll opts with
           | Some (_ :: _) => [{| poll_id := pollId; poll_postId := postId |}]
           | _ => []
           end)%list
  /\ (exists choices,
        postPollChoices db' = (postPollChoices db ++ choices)%list
        /\ map c_content choices
           = match co_poll opts with Some cs => cs | None => [] end
        /\ Forall (fun c => c_pollId c = pollId) choices)
  /\ (exists added,
        attachments db' = (attachments db ++ added)%list
        /\ List.length added
           = (if is_null (co_attachment opts) then 0 else 1)%nat
        /\ Forall (fun a => at_postId a = postId) added).
Proof.
  unfold createPost.
  set (guard := match truthy_string (co_commentToId opts) with
                | Some target => _
                | None => None
                end).
  destruct guard as [e|] eqn:Hguard; [discriminate|].
  intros H. injection H as <- <-.
  set (row := {| p_id := postId; content := _; createdById := co_userId opts;
                 commentToId := _; quotedPostId := None; deleted := None;
                 estimateLikes := 0; views := 0; createdAt := now;
                 editedAt := None |}).
  set (db3 := match co_poll opts with Some (c :: cs) => _ | _ => _ end).
  assert (Hframe : forall d,
             d = match truthy_string (co_commentToId opts) with
                 | Some _ =>
                     createPostNotification db3
                       {| cn_toId := None; cn_byId := co_userId opts;
                          cn_postId := Some postId; cn_type := REPLIED |}
                       notificationId tx
                 | None => db3
                 end ->
             posts d = posts db3 /\ postPolls d = postPolls db3
             /\ postPollChoices d = postPollChoices db3
             /\ attachments d = attachments db3).
  { intros d ->. destruct (truthy_string (co_commentToId opts));
      [|repeat split].
    destruct (notify_frame db3 {| cn_toId := None; cn_byId := co_userId opts;
                                  cn_postId := Some postId;
                                  cn_type := REPLIED |} notificationId tx)
      as [_ [H1 [H2 [H3 [_ [H4 _]]]]]].
    repeat split; assumption. }
  destruct (Hframe _ eq_refl) as [Hposts [Hpolls [Hchoices Hatt]]].
  simpl fst. rewrite Hposts, Hpolls, Hchoices, Hatt. clear Hframe.
  split.
  { exists row. rewrite pv_post_constructInclude.
    split; [|repeat split].
    unfold db3. destruct (co_poll opts) as [[|c cs]|];
      destruct (co_attachment opts) as [[[w h] pth]|]; reflexivity. }
  split.
  { intros target Ht. unfold guard in Hguard. rewrite Ht in Hguard.
    destruct (post_by_id db target) as [comment|]; [|discriminate].
    exists comment. split; [reflexivity|].
    now destruct (getBlockedUserIds _ _ _). }
  split.
  { unfold db3. destruct (co_poll opts) as [[|c cs]|];
      destruct (co_attachment opts) as [[[w h] pth]|]; simpl;
      rewrite ?app_nil_r; reflexivity. }
  split.
  { unfold db3. destruct (co_poll opts) as [[|c cs]|].
    - exists []. rewrite app_nil_r.
      destruct (co_attachment opts) as [[[w h] pth]|]; repeat split;
        constructor.
    - eexists. split;
        [destruct (co_attachment opts) as [[[w h] pth]|]; reflexivity|].
      split.
      + simpl. f_equal. rewrite map_map. simpl.
        apply (@map_snd_combine Id string). now rewrite length_map, length_seq.
      + constructor; [reflexivity|].
        apply Forall_forall. intros x Hx. apply in_map_iff in Hx.
        now destruct Hx as [ic [<- _]].
    - exists []. rewrite app_nil_r.
      destruct (co_attachment opts) as [[[w h] pth]|]; repeat split;
        constructor. }
  unfold db3. destruct (co_attachment opts) as [[[w h] pth]|]; simpl.
  - eexists. split;
      [destruct (co_poll opts) as [[|c cs]|]; reflexivity|].
    split; [reflexivity|]. repeat constructor.
  - exists []. rewrite app_nil_r.
    destruct (co_poll opts) as [[|c cs]|]; repeat split; constructor.
Qed.

Lemma reply_notification_core (db db3 : DB) (row comment : Post)
    (userId postId target notificationId : Id) (tx : StorageOutcome) :
  posts db3 = (posts db ++ [row])%list ->
  accounts db3 = accounts db ->
  postNotifications db3 = postNotifications db ->
  p_id row = postId -> commentToId row = Some target ->
  post_by_id db target = Some comment ->
  post_by_id db postId = None ->
  (forall n, In n (postNotifications db) -> n_postId n <> Some postId) ->
  createdById comment <> EmptyString ->
  let nopts := {| cn_toId := None; cn_byId := userId;
                  cn_postId := Some postId; cn_type := REPLIED |} in
  (createdById comment = userId ->
   createPostNotification db3 nopts notificationId tx = db3)
  /\ (createdById comment <> userId ->
      forall a, user_account db (createdById comment) = Some a ->
                tx = Stored ->
                createPostNotification db3 nopts notificationId tx
                = notified db3 nopts notificationId (createdById comment)).
Proof.
  intros Hposts Hacc Hnotif Hid Hct Hcomment Hfresh Hnone Hne nopts.
  assert (Hres : resolve_toId db3 nopts = Some (Some (createdById comment))).
  { unfold resolve_toId, nopts. simpl.
    assert (Hrow : findFirst (where_id_is (Some postId)) (posts db3)
                   = Some row).
    { rewrite Hposts. unfold findFirst.
      unfold post_by_id, findFirst in Hfresh.
      rewrite (find_app_r _ _ _ Hfresh). simpl.
      now rewrite Hid, String.eqb_refl. }
    rewrite Hrow. unfold post_commentTo. rewrite Hct.
    unfold post_by_id, findFirst. rewrite Hposts.
    unfold post_by_id, findFirst in Hcomment.
    now rewrite (find_app_l _ _ _ Hcomment). }
  apply String.eqb_neq in Hne.
  split.
  - intros Hself. unfold createPostNotification. rewrite Hres.
    simpl truthy_string. rewrite Hne. unfold nopts.
    cbn [cn_byId cn_type cn_postId]. now rewrite Hself, String.eqb_refl.
  - intros Hother a Ha ->. unfold createPostNotification. rewrite Hres.
    simpl truthy_string. rewrite Hne. unfold nopts.
    cbn [cn_byId cn_type cn_postId].
    apply String.eqb_neq in Hother. rewrite Hother.
    assert (Hex : findFirst (same_notification userId (createdById comment)
                                               REPLIED (Some postId))
                            (postNotifications db3) = None).
    { rewrite Hnotif. apply find_none_iff. intros n Hn.
      unfold same_notification.
      specialize (Hnone n Hn). unfold equals_id.
      destruct (n_postId n) as [z|]; [|now rewrite andb_false_r].
      destruct (String.eqb z postId) eqn:E; [|now rewrite andb_false_r].
      apply String.eqb_eq in E. subst. now destruct Hnone. }
    rewrite Hex. unfold user_account. rewrite Hacc.
    unfold user_account in Ha. now rewrite Ha.
Qed.

(** A reply notifies the author of the post it answers: when a reply with a
    fresh identifier is created under another user's post, and that user has
    an account, a [REPLIED] notification from the replier to that user about
    the new post is added and the user's unread counter goes up by one;
    replying to one's own post notifies nobody. *)
Theorem createPost_reply_notifies
    (getBlockedUserIds : list Friend -> list Id -> Id -> list Id)
    (replaceBadWords trim : string -> string)
    (db : DB) (opts : CreatePostOpts) (postId attachmentId pollId : Id)
    (choiceId : nat -> Id) (now : Z) (notificationId : Id)
    (tx : StorageOutcome) (target : Id) (comment : Post) :
  truthy_string (co_commentToId opts) = Some target ->
  post_by_id db target = Some comment ->
  getBlockedUserIds (friends db) [createdById comment] (co_userId opts) = [] ->
  post_by_id db postId = None ->
  (forall n, In n (postNotifications db) -> n_postId n <> Some postId) ->
  createdById comment <> EmptyString ->
  (createdById comment = co_userId opts ->
   postNotifications
     (fst (createPost getBlockedUserIds replaceBadWords trim db opts postId
                      attachmentId pollId choiceId now notificationId tx))
   = postNotifications db
   /\ accounts
        (fst (createPost getBlockedUserIds replaceBadWords trim db opts
                         postId attachmentId pollId choiceId now
                         notificationId tx))
      = accounts db)
  /\ (createdById comment <> co_userId opts ->
      forall a, user_account db (createdById comment) = Some a ->
                tx = Stored ->
                postNotifications
                  (fst (createPost getBlockedUserIds replaceBadWords trim db
                                   opts postId attachmentId pollId choiceId
                                   now notificationId tx))
                = (postNotifications db
                   ++ [{| n_id := notificationId; n_byId := co_userId opts;
                          n_toId := createdById comment; n_type := REPLIED;
                          n_postId := Some postId |}])%list
                /\ unread
                     (fst (createPost getBlockedUserIds replaceBadWords trim
                                      db opts postId attachmentId pollId
                                      choiceId now notificationId tx))
                     (createdById comment)
                   = Some (postNotificationCount a + 1)).
Proof.
  intros Ht Hcomment Hblk Hfresh Hnone Hne.
  unfold createPost. rewrite Ht, Hcomment, Hblk. cbv zeta. simpl fst.
  set (row := {| p_id := postId; content := _; createdById := co_userId opts;
                 commentToId := Some target; quotedPostId := None;
                 deleted := None; estimateLikes := 0; views := 0;
                 createdAt := now; editedAt := None |}).
  set (db3 := match co_poll opts with Some (c :: cs) => _ | _ => _ end).
  assert (H3 : posts db3 = (posts db ++ [row])%list
               /\ accounts db3 = accounts db
               /\ postNotifications db3 = postNotifications db).
  { unfold db3. destruct (co_poll opts) as [[|c cs]|];
      destruct (co_attachment opts) as [[[w h] pth]|]; repeat split. }
  destruct H3 as [Hposts [Hacc Hnotif]].
  destruct (@reply_notification_core db db3 row comment (co_userId opts)
              postId target notificationId tx Hposts Hacc Hnotif eq_refl
              eq_refl Hcomment Hfresh Hnone Hne) as [Hself Hother].
  split.
  - intros Heq. rewrite (Hself Heq). now split.
  - intros Hneq a Ha Htx. rewrite (Hother Hneq a Ha Htx). split.
    + unfold notified, create, notification_row. simpl. now rewrite Hnotif.
    + rewrite unread_notified, String.eqb_refl. unfold unread, user_account.
      rewrite Hacc. unfold user_account in Ha. now rewrite Ha.
Qed.

(** ** The unread counter *)

(** Dismissing sets the user's unread counter to zero when the user has an
    account, touches no other user's counter and deletes no notification
    row; the next notification that is due for the user brings the counter
    to one. *)
Theorem dismiss_resets_counter (db : DB) (userId : Id) :
  getPostNotificationCount (dismissPostNotification db userId) userId
  = option_map (fun _ => 0) (getPostNotificationCount db userId)
  /\ (forall u, u <> userId ->
        getPostNotificationCount (dismissPostNotification db userId) u
        = getPostNotificationCount db u)
  /\ postNotifications (dismissPostNotification db userId)
     = postNotifications db
  /\ (forall opts newId account,
        resolve_toId db opts = Some (Some userId) ->
        userId <> EmptyString -> userId <> cn_byId opts ->
        findFirst (same_notification (cn_byId opts) userId (cn_type opts)
                                     (cn_postId opts))
                  (postNotifications db) = None ->
        user_account db userId = Some account ->
        getPostNotificationCount
          (createPostNotification (dismissPostNotification db userId) opts
                                  newId Stored)
          userId = Some 1).
Proof.
  assert (Hcount : forall u,
             getPostNotificationCount (dismissPostNotification db userId) u
             = if String.eqb u userId
               then option_map (fun _ => 0) (getPostNotificationCount db u)
               else getPostNotificationCount db u).
  { intros u. unfold getPostNotificationCount, dismissPostNotification,
      findFirst. simpl.
    rewrite find_updateMany_account by reflexivity.
    destruct (String.eqb u userId); [|reflexivity].
    now destruct (find _ (accounts db)). }
  split; [now rewrite Hcount, String.eqb_refl|].
  split.
  { intros u Hu. rewrite Hcount. apply String.eqb_neq in Hu. now rewrite Hu. }
  split; [reflexivity|].
  intros opts newId account Hres Hne Hself Hex Hacc.
  set (d := dismissPostNotification db userId).
  assert (Hfirst : createPostNotification d opts newId Stored
                   = notified d opts newId userId).
  { unfold createPostNotification.
    change (resolve_toId d opts) with (resolve_toId db opts).
    rewrite Hres. simpl truthy_string.
    apply String.eqb_neq in Hne, Hself. rewrite Hne, Hself.
    change (postNotifications d) with (postNotifications db). rewrite Hex.
    assert (Hd : user_account d userId
                 = Some (reset_notificationCount account)).
    { unfold user_account, d, dismissPostNotification, findFirst. simpl.
      rewrite find_updateMany_account by reflexivity.
      rewrite String.eqb_refl. unfold user_account, findFirst in Hacc.
      now rewrite Hacc. }
    now rewrite Hd. }
  rewrite Hfirst.
  change (getPostNotificationCount (notified d opts newId userId) userId)
    with (unread (notified d opts newId userId) userId).
  rewrite unread_notified, String.eqb_refl.
  change (unread d userId) with (getPostNotificationCount d userId).
  rewrite Hcount, String.eqb_refl.
  unfold getPostNotificationCount. unfold user_account in Hacc.
  now rewrite Hacc.
Qed.

(** ** Announcements *)

Lemma id_in_In ids x : id_in ids x = true <-> In x ids.
Proof.
  unfold id_in. rewrite existsb_exists. split.
  - intros [y [Hy E]]. apply String.eqb_eq in E. now subst.
  - intros H. exists x. split; [exact H | apply String.eqb_refl].
Qed.




(** ** The view flush *)







(** ** The content-deletion sweep *)

Lemma findMany_where_ext {A} (w1 w2 : A -> bool) le c sk tk table :
  (forall x, w1 x = w2 x) ->
  findMany w1 le c sk tk table = findMany w2 le c sk tk table.
Proof. intros H. unfold findMany. now rewrite (filter_ext _ _ H). Qed.

Lemma updateMany_none {A} (f : A -> A) (l : list A) :
  updateMany (fun _ => false) f l = l.
Proof. unfold updateMany. apply map_id. Qed.

(** The posts, likes, polls and attachments the sweep leaves, in terms of
    the identifiers of the posts it selected. *)
Lemma sweep_tables db :
  let postIds :=
    map p_id (findMany (sweepable db) (Some created_desc) None None
                       (Some 1000) (posts db)) in
  users (scheduleDeleteAccountContent db) = users db
  /\ posts (scheduleDeleteAccountContent db)
     = updateMany (fun p => id_in postIds (p_id p)) soft_delete_sweep
                  (posts db)
  /\ (forall l, In l (postLikes (scheduleDeleteAccountContent db)) ->
                In l (postLikes db) /\ id_in postIds (l_postId l) = false)
  /\ (forall q, In q (postPolls (scheduleDeleteAccountContent db)) ->
                In q (postPolls db) /\ id_in postIds (poll_postId q) = false)
  /\ (forall a, In a (attachments (scheduleDeleteAccountContent db)) ->
                In a (attachments db) /\ id_in postIds (at_postId a) = false).
Proof.
  intros postIds. unfold scheduleDeleteAccountContent. cbv zeta.
  set (liked := findMany (liker_gone db) None None None (Some 1000)
                         (postLikes db)).
  set (db1 := if nonempty liked then _ else db).
  assert (H1 : users db1 = users db /\ posts db1 = posts db
               /\ postPolls db1 = postPolls db
               /\ attachments db1 = attachments db
               /\ forall l, In l (postLikes db1) -> In l (postLikes db)).
  { unfold db1. destruct (nonempty liked); repeat split; auto.
    intros l Hl. simpl in Hl. now apply deleteMany_In in Hl. }
  clearbody db1. destruct H1 as [Hu [Hp [Hq [Ha Hl]]]].
  assert (Hsel : map p_id
                   (findMany (fun p => is_null (deleted p)
                                       && author_scheduled db1 (createdById p))
                             (Some created_desc) None None (Some 1000)
                             (posts db1))
                 = postIds).
  { rewrite Hp. unfold postIds. f_equal.
    apply findMany_where_ext. intros x. unfold sweepable, author_scheduled,
      user_by_id. now rewrite Hu. }
  rewrite Hsel.
  set (db2 := if nonempty (map m_id _) then _ else db1).
  assert (H2 : users db2 = users db1 /\ posts db2 = posts db1
               /\ postPolls db2 = postPolls db1
               /\ attachments db2 = attachments db1
               /\ postLikes db2 = postLikes db1).
  { unfold db2. destruct (nonempty (map m_id _)); repeat split. }
  clearbody db2. destruct H2 as [Hu2 [Hp2 [Hq2 [Ha2 Hl2]]]].
  destruct (nonempty postIds) eqn:Hne.
  - simpl. rewrite Hu2, Hp2, Hq2, Ha2, Hl2, Hu, Hp, Hq, Ha.
    split; [reflexivity|]. split; [reflexivity|].
    repeat split;
      match goal with H : In _ _ |- _ =>
        apply deleteMany_In in H; destruct H as [H ?] end; auto.
  - destruct postIds; [|discriminate].
    rewrite updateMany_none, Hu2, Hp2, Hq2, Ha2, Hl2, Hu, Hp, Hq, Ha.
    repeat split; auto.
Qed.

(** One run of the sweep keeps every post row with its identifier, author,
    parent link and creation time, and a row it changes comes out deleted
    with null content; posts that share no identifier with an undeleted post
    of a marked author are left as they are; and when at most 1000 undeleted
    posts of marked authors exist, no such post is left afterwards and no
    like, poll or attachment row refers to any of them. *)
Theorem sweep_completes (db : DB) :
  map (fun p => (p_id p, createdById p, commentToId p, createdAt p))
      (posts (scheduleDeleteAccountContent db))
  = map (fun p => (p_id p, createdById p, commentToId p, createdAt p))
        (posts db)
  /\ (forall p', In p' (posts (scheduleDeleteAccountContent db)) ->
        In p' (posts db) \/ (deleted p' = Some true /\ content p' = None))
  /\ (forall p, In p (posts db) ->
        (forall q, In q (posts db) -> sweepable db q = true ->
                   p_id q <> p_id p) ->
        In p (posts (scheduleDeleteAccountContent db)))
  /\ ((List.length (filter (sweepable db) (posts db)) <= 1000)%nat ->
      (forall p', In p' (posts (scheduleDeleteAccountContent db)) ->
         sweepable (scheduleDeleteAccountContent db) p' = false)
      /\ forall q, In q (posts db) -> sweepable db q = true ->
           (forall l, In l (postLikes (scheduleDeleteAccountContent db)) ->
                      l_postId l <> p_id q)
           /\ (forall r, In r (postPolls (scheduleDeleteAccountContent db)) ->
                         poll_postId r <> p_id q)
           /\ (forall a, In a (attachments (scheduleDeleteAccountContent db)) ->
                         at_postId a <> p_id q)).
Proof.
  destruct (sweep_tables db) as [Hu [Hp [Hl [Hq Ha]]]].
  set (postIds := map p_id (findMany (sweepable db) (Some created_desc) None
                                     None (Some 1000) (posts db))) in *.
  assert (Hids : forall x, id_in postIds (p_id x) = true ->
                   exists q, In q (posts db) /\ sweepable db q = true
                             /\ p_id q = p_id x).
  { intros x Hx. apply id_in_In in Hx. unfold postIds in Hx.
    apply in_map_iff in Hx. destruct Hx as [q [Hid Hin]].
    apply findMany_In in Hin. now exists q. }
  split.
  { rewrite Hp. unfold updateMany. rewrite map_map. apply map_ext.
    intros p. now destruct (id_in postIds (p_id p)). }
  split.
  { intros p' Hp'. rewrite Hp in Hp'. apply updateMany_In in Hp'.
    destruct Hp' as [x [Hx ->]].
    destruct (id_in postIds (p_id x)); [right; now split | now left]. }
  split.
  { intros p Hin Hother. rewrite Hp. unfold updateMany. apply in_map_iff.
    exists p. split; [|exact Hin].
    destruct (id_in postIds (p_id p)) eqn:E; [|reflexivity].
    destruct (Hids p E) as [q [Hq1 [Hq2 Hq3]]].
    now destruct (Hother q Hq1 Hq2). }
  intros Hlen.
  assert (Hall : forall q, In q (posts db) -> sweepable db q = true ->
                   id_in postIds (p_id q) = true).
  { intros q Hin Hs. apply id_in_In. unfold postIds. apply in_map.
    apply findMany_fits; [lia | exact Hlen | now split]. }
  split.
  - intros p' Hp'. rewrite Hp in Hp'. apply updateMany_In in Hp'.
    destruct Hp' as [x [Hx ->]].
    assert (Hsw : forall y, sweepable (scheduleDeleteAccountContent db) y
                            = sweepable db y).
    { intros y. unfold sweepable, author_scheduled, user_by_id.
      now rewrite Hu. }
    rewrite Hsw.
    destruct (id_in postIds (p_id x)) eqn:E; [reflexivity|].
    destruct (sweepable db x) eqn:Hs; [|reflexivity].
    rewrite (Hall x Hx Hs) in E. discriminate.
  - intros q Hin Hs. pose proof (Hall q Hin Hs) as Hq'.
    repeat split.
    + intros l Hl' Heq. destruct (Hl l Hl') as [_ H]. rewrite Heq in H.
      congruence.
    + intros r Hr Heq. destruct (Hq r Hr) as [_ H]. rewrite Heq in H.
      congruence.
    + intros a Ha' Heq. destruct (Ha a Ha') as [_ H]. rewrite Heq in H.
      congruence.
Qed.

Lemma sweep_completes_witness :
  Forall (fun p' =>
            sweepable
              (scheduleDeleteAccountContent DeletionSamples.scheduled_store)
              p' = false)
         (posts (scheduleDeleteAccountContent DeletionSamples.scheduled_store)).
Proof.
  apply Forall_forall.
  apply (proj1 (proj2 (proj2 (proj2 (sweep_completes
                                       DeletionSamples.scheduled_store)))
                      ltac:(apply Nat.leb_le; vm_compute; reflexivity))).
Defined.

(** ** Cache keys *)

(** No two cache keys collide: a key determines the builder that made it
    and the identifier it was made from. *)
Theorem cache_key_injective (b1 b2 : KeyBuilder) (id1 id2 : string) :
  cache_key b1 id1 = cache_key b2 id2 -> b1 = b2 /\ id1 = id2.
Proof.
  destruct b1, b2; cbv [cache_key ACCOUNT_CACHE_KEY_STRING SERVER_KEY_STRING
                        SERVER_CHANNEL_KEY_STRING SERVER_MEMBERS_KEY_HASH
                        CONNECTED_SOCKET_ID_KEY_SET
                        CONNECTED_USER_ID_KEY_STRING
                        USER_PRESENCE_KEY_STRING];
    simpl; intros H; try discriminate H;
    split; try reflexivity; congruence.
Qed.

Lemma cache_key_injective_witness :
  ServerKey = ServerKey /\ "42" = "42".
Proof.
  apply (@cache_key_injective ServerKey ServerKey "42" "42"). reflexivity.
Defined.

(** ** Poll views and like lists *)

Lemma no_vote_of_mine u q (l : list PostPollVotedUser) :
  find (fun v => String.eqb (v_userId v) u && String.eqb (v_pollId v) q) l
  = None ->
  filter (fun v => String.eqb (v_userId v) u)
         (filter (fun v => String.eqb (v_pollId v) q) l) = [].
Proof.
  induction l as [|a l IH]; simpl; [reflexivity|].
  destruct (String.eqb (v_userId a) u) eqn:Eu;
    destruct (String.eqb (v_pollId a) q) eqn:Ep; simpl;
    try discriminate; rewrite ?Eu; exact IH.
Qed.

(** A vote that goes through adds one to the derived count of the chosen
    choice and to no other, and the voter's view of the poll, which listed
    no vote of theirs before, now lists that choice and counts one more
    voter. *)
Theorem vote_shows_in_poll
    (getBlockedUserIds : list Friend -> list Id -> Id -> list Id)
    (db db' : DB) (requesterId postId pollId choiceId voteId : Id) :
  votePostPoll getBlockedUserIds db requesterId postId pollId choiceId voteId
  = (db', Ok true) ->
  (forall c, choice_votes db' c
             = (choice_votes db c
                + if String.eqb choiceId c then 1 else 0)%nat)
  /\ forall p before,
       include_poll db requesterId p = Some before ->
       pl_id before = pollId ->
       pl_votedUsers before = []
       /\ exists after,
            include_poll db' requesterId p = Some after
            /\ pl_id after = pollId
            /\ pl_votedUsers after = [choiceId]
            /\ pl_count_votedUsers after = S (pl_count_votedUsers before)
            /\ map pc_id (pl_choices after) = map pc_id (pl_choices before)
            /\ map pc_count_votedUsers (pl_choices after)
               = map (fun c => (pc_count_votedUsers c
                                + if String.eqb choiceId (pc_id c)
                                  then 1 else 0)%nat)
                     (pl_choices before).
Proof.
  intros Hok.
  destruct (vote_ok_inserts _ _ _ _ _ _ _ Hok) as [Hnone ->].
  assert (Hvotes : postPollVotedUsers
                     (set_postPollVotedUsers
                        (create (vote_row voteId requesterId pollId choiceId))
                        db)
                   = (postPollVotedUsers db
                      ++ [vote_row voteId requesterId pollId choiceId])%list)
    by reflexivity.
  split.
  { intros c. unfold choice_votes. rewrite Hvotes.
    rewrite filter_app, length_app. simpl.
    destruct (String.eqb choiceId c); reflexivity. }
  intros p before Hbefore Hid. unfold include_poll in *.
  change (postPolls (set_postPollVotedUsers
                       (create (vote_row voteId requesterId pollId choiceId))
                       db))
    with (postPolls db).
  change (postPollChoices
            (set_postPollVotedUsers
               (create (vote_row voteId requesterId pollId choiceId)) db))
    with (postPollChoices db).
  rewrite Hvotes.
  destruct (findFirst _ (postPolls db)) as [q|]; [|discriminate].
  injection Hbefore as <-. cbn [pl_id] in Hid.
  cbn [pl_votedUsers pl_count_votedUsers pl_choices pl_id].
  assert (Hmine : filter (fun v => String.eqb (v_userId v) requesterId)
                         (filter (fun v => String.eqb (v_pollId v) (poll_id q))
                                 (postPollVotedUsers db)) = []).
  { rewrite Hid. apply no_vote_of_mine. exact Hnone. }
  split; [now rewrite Hmine|].
  eexists. split; [reflexivity|].
  cbn [pl_votedUsers pl_count_votedUsers pl_choices pl_id].
  assert (Hnew : filter (fun v => String.eqb (v_pollId v) (poll_id q))
                        [vote_row voteId requesterId pollId choiceId]
                 = [vote_row voteId requesterId pollId choiceId]).
  { cbn [filter vote_row v_pollId]. now rewrite Hid, String.eqb_refl. }
  split; [exact Hid|]. split.
  { rewrite !filter_app, Hnew, Hmine. cbn [app filter vote_row v_userId].
    now rewrite String.eqb_refl. }
  split.
  { rewrite filter_app, Hnew, length_app. cbn [List.length]. lia. }
  split.
  - rewrite !map_map. reflexivity.
  - rewrite !map_map. apply map_ext. intros c.
    cbn [pc_count_votedUsers pc_id].
    rewrite filter_app, length_app.
    cbn [filter pollChoiceId vote_row].
    destruct (String.eqb choiceId (c_id c)); reflexivity.
Qed.



(** ** Closed instances *)

Lemma like_unlike_roundtrip_witness :
  posts (fst (unlikePost gate_isUserBlocked RoundTripSamples.liked
                         "alice" "p1"))
  = posts LikeSamples.unliked_store
  /\ postLikes (fst (unlikePost gate_isUserBlocked RoundTripSamples.liked
                                "alice" "p1"))
     = postLikes LikeSamples.unliked_store.
Proof.
  destruct (@like_unlike_roundtrip gate_isUserBlocked gate_getBlockedUserIds
              LikeSamples.unliked_store RoundTripSamples.liked
              "alice" "p1" "l1" 5 Stored "n1" Stored
              RoundTripSamples.liked_result eq_refl)
    as [_ [Hp [Hl _]]].
  - intros l [].
  - split; [exact Hp | exact Hl].
Defined.

Lemma likes_counter_consistent_witness :
  Forall (fun p =>
            estimateLikes p
            = Z.of_nat (List.length
                          (likes_of_post RoundTripSamples.liked (p_id p))))
         (posts RoundTripSamples.liked).
Proof.
  apply Forall_forall.
  refine (proj1 (@likes_counter_consistent gate_isUserBlocked
                   gate_getBlockedUserIds LikeSamples.unliked_store
                   "alice" "p1" _)
                "l1" 5 "n1" Stored).
  intros p [<-|[]]. reflexivity.
Defined.

Lemma createPost_effects_witness :
  exists row,
    posts (fst CreateSamples.created)
    = (posts NotificationSamples.replied_store ++ [row])%list
    /\ p_id row = "p3" /\ createdById row = "alice".
Proof.
  destruct (@createPost_effects gate_getBlockedUserIds (fun s => s)
              (fun s => s) NotificationSamples.replied_store
              (fst CreateSamples.created) CreateSamples.reply_opts
              "p3" "a1" "poll1" (fun i => Samples.sample_id i) 9 "n1" Stored
              CreateSamples.created_view eq_refl)
    as [[row [H1 [_ [H2 [H3 _]]]]] _].
  exists row. repeat split; assumption.
Defined.

Lemma createPost_reply_notifies_witness :
  unread (fst CreateSamples.created) "bob" = Some (0 + 1).
Proof.
  refine (proj2 (proj2 (@createPost_reply_notifies gate_getBlockedUserIds
                          (fun s => s) (fun s => s)
                          NotificationSamples.replied_store
                          CreateSamples.reply_opts "p3" "a1" "poll1"
                          (fun i => Samples.sample_id i) 9 "n1" Stored
                          "p1" (Samples.post "p1" "bob" 1)
                          eq_refl eq_refl eq_refl eq_refl _ _)
                       _ {| a_userId := "bob"; postNotificationCount := 0 |}
                       eq_refl eq_refl)).
  - intros n [].
  - discriminate.
  - discriminate.
Defined.

Lemma vote_shows_in_poll_witness :
  choice_votes VoteSamples.voted "c1"
  = (choice_votes VoteSamples.poll_store "c1"
     + if String.eqb "c1" "c1" then 1 else 0)%nat.
Proof.
  apply (proj1 (@vote_shows_in_poll gate_getBlockedUserIds
                  VoteSamples.poll_store VoteSamples.voted
                  "alice" "p1" "poll1" "c1" "v1" eq_refl) "c1").
Defined.

Lemma fetchPosts_later_key_wins_witness :
  fetchPosts FeedSamples.followed_store
             (with_afterId (Some "p3") OptionSamples.before_p1)
  = fetchPosts FeedSamples.followed_store OptionSamples.before_p1.
Proof.
  apply (proj1 (fetchPosts_later_key_wins FeedSamples.followed_store
                                          OptionSamples.before_p1)
               "p1" (Some "p3") eq_refl).
Defined.

Lemma fetchLatestPost_latest_witness :
  exists v,
    fetchLatestPost FeedSamples.followed_store OptionSamples.latest_of_bob
    = Some v
    /\ createdById (pv_post v) = "bob" /\ commentToId (pv_post v) = None.
Proof.
  eexists. split; [reflexivity|].
  destruct (proj1 (fetchLatestPost_latest FeedSamples.followed_store
                                          OptionSamples.latest_of_bob)
                  _ eq_refl) as [_ [_ [Hc [Hb _]]]].
  split; [exact Hb | exact Hc].
Defined.

Lemma likePost_once_witness :
  likePost gate_isUserBlocked gate_getBlockedUserIds RoundTripSamples.liked
           "alice" "p1" "l2" 6 Stored "n2" Stored
  = (RoundTripSamples.liked,
     Err (generateError "You have already liked this post!")).
Proof.
  apply (proj2 (@likePost_once gate_isUserBlocked gate_getBlockedUserIds
                  LikeSamples.unliked_store "alice" "p1" "l1" 5 Stored
                  "n1" Stored)
               RoundTripSamples.liked RoundTripSamples.liked_result eq_refl).
Defined.

Lemma editPost_author_only_witness :
  editPost (fun s => s) (fun s => s) LikeSamples.unliked_store
           OptionSamples.foreign_edit 7 Stored
  = (LikeSamples.unliked_store, Err (generateError "Post not found")).
Proof.
  apply (proj1 (@editPost_author_only (fun s => s) (fun s => s)
                  LikeSamples.unliked_store OptionSamples.foreign_edit
                  7 Stored)).
  intros p [<-|[]] _. left. discriminate.
Defined.

Lemma dismiss_resets_counter_witness :
  getPostNotificationCount
    (createPostNotification
       (dismissPostNotification NotificationSamples.replied_store "bob")
       NotificationSamples.replied_p2 "n1" Stored)
    "bob" = Some 1.
Proof.
  refine (proj2 (proj2 (proj2 (dismiss_resets_counter
                                 NotificationSamples.replied_store "bob")))
                NotificationSamples.replied_p2 "n1"
                {| a_userId := "bob"; postNotificationCount := 0 |}
                eq_refl _ _ eq_refl eq_refl); discriminate.
Defined.


